(** * reprounzip: the default unpackers ([directory] and [chroot])

    A shallow embedding of [reprounzip/unpackers/default.py] and the
    properties its specification states about it.

    The Python code is imperative: it reads and writes the file system, logs,
    raises exceptions ([sys.exit] raises [SystemExit]) and spawns external
    commands.  It is embedded in a state-and-exception monad over a [world]
    holding the file tree, the process' identity and the trace of what the
    process emitted, in order. *)

From Stdlib Require Import ZArith Ascii String List Bool Lia.
From stdpp Require Import base option list strings pretty gmap fin_maps.

Local Open Scope string_scope.
Local Open Scope Z_scope.

(** ** Strings *)

Module Str.

(** [s.startswith(pre)] *)
Definition startswith (pre s : string) : bool := String.prefix pre s.

(** [sub in s] *)
Fixpoint contains (sub s : string) : bool :=
  String.prefix sub s ||
  match s with
  | EmptyString => false
  | String _ s' => contains sub s'
  end.

(** [s.endswith(suf)] *)
Definition endswith (suf s : string) : bool :=
  String.prefix (String.rev suf) (String.rev s).

(** [s[n:]] *)
Fixpoint drop (n : nat) (s : string) : string :=
  match n, s with
  | O, _ => s
  | S _, EmptyString => EmptyString
  | S n', String _ s' => drop n' s'
  end.

(** [s[:-n]] for [n <= len(s)] *)
Definition chop (n : nat) (s : string) : string :=
  String.substring 0 (String.length s - n) s.

(** [s.split(c)]: the accumulator holds the current field, reversed. *)
Fixpoint split_acc (c : ascii) (acc : string) (s : string) : list string :=
  match s with
  | EmptyString => [String.rev acc]
  | String a s' =>
      if Ascii.eqb a c then String.rev acc :: split_acc c EmptyString s'
      else split_acc c (String a acc) s'
  end.
Definition split (c : ascii) (s : string) : list string :=
  split_acc c EmptyString s.

(** [sep.join(l)] *)
Fixpoint join (sep : string) (l : list string) : string :=
  match l with
  | [] => ""
  | [x] => x
  | x :: l' => x ++ sep ++ join sep l'
  end.

(** [s.split(c, 1)]: the two sides of the first [c], when there is one. *)
Fixpoint split_once (c : ascii) (s : string) : option (string * string) :=
  match s with
  | EmptyString => None
  | String a s' =>
      if Ascii.eqb a c then Some (EmptyString, s')
      else match split_once c s' with
           | Some (l, r) => Some (String a l, r)
           | None => None
           end
  end.

(** [s.rsplit(c, 1)]: the two sides of the last [c], when there is one. *)
Definition rsplit_once (c : ascii) (s : string) : option (string * string) :=
  match split_once c (String.rev s) with
  | Some (r, l) => Some (String.rev l, String.rev r)
  | None => None
  end.

End Str.

(** A line feed, a tab, a double quote. *)
Definition LF : string := String (ascii_of_nat 10) EmptyString.
Definition TAB : string := String (ascii_of_nat 9) EmptyString.
Definition DQUOTE : string := String (ascii_of_nat 34) EmptyString.

(** ** Paths (the [rpaths] library)

    An [rpaths] path is kept normalised; it is modelled by whether it starts
    at the root and by its segments. *)

Record rpath := RPath { is_absolute : bool; segs : list string }.

Module Path.

(** [posixpath.normpath] on segments; [acc] is the stack of kept segments,
    innermost first. *)
Fixpoint norm (abs : bool) (acc : list string) (cs : list string)
  : list string :=
  match cs with
  | [] => rev acc
  | c :: cs' =>
      if bool_decide (c = "") || bool_decide (c = ".") then norm abs acc cs'
      else if bool_decide (c = "..") then
        match acc with
        | a :: acc' =>
            if bool_decide (a = "..") then norm abs (c :: acc) cs'
            else norm abs acc' cs'
        | [] => if abs then norm abs [] cs' else norm abs [c] cs'
        end
      else norm abs (c :: acc) cs'
  end.

(** [Path(s)] *)
Definition of_string (s : string) : rpath :=
  let abs := Str.startswith "/" s in
  RPath abs (norm abs [] (Str.split "/"%char s)).

(** [str(p)] *)
Definition to_string (p : rpath) : string :=
  if is_absolute p then "/" ++ Str.join "/" (segs p)
  else match segs p with [] => "." | l => Str.join "/" l end.

(** [p / q] *)
Definition join (p q : rpath) : rpath :=
  if is_absolute q then q
  else RPath (is_absolute p) (norm (is_absolute p) [] (segs p ++ segs q)).

(** [p.parent] *)
Definition parent (p : rpath) : rpath :=
  RPath (is_absolute p) (removelast (segs p)).

(** [p.name] *)
Definition name (p : rpath) : string := List.last (segs p) "".

(** [p.components]: the root marker counts as the first component of an
    absolute path. *)
Definition components (p : rpath) : list string :=
  if is_absolute p then "/" :: segs p else segs p.

End Path.

Notation "p // s" := (Path.join p (Path.of_string s))
  (at level 40, left associativity).

(** Modelled from the spec: [join_root] of [reprounzip.unpackers.common],
    the translation rule: "a pure function concatenating the reconstructed
    root with the absolute path stripped of its leading root marker". *)
Definition join_root (root path : rpath) : rpath :=
  RPath (is_absolute root)
        (Path.norm (is_absolute root) [] (segs root ++ segs path)).

(** ** Values stored on disk *)

(** The values of the pickled per-target record. *)
Inductive pyval :=
| VNone
| VBool (b : bool)
| VStr (s : string)
| VDict (d : gmap string string).

(** Python's truth value, as [if not mounted] tests it. *)
Definition truthy (v : pyval) : bool :=
  match v with
  | VNone => false
  | VBool b => b
  | VStr s => negb (bool_decide (s = ""))
  | VDict d => negb (bool_decide (d = ∅))
  end.

(** [x != type_] against a string *)
Definition differs (v : pyval) (s : string) : bool :=
  match v with
  | VStr s' => negb (bool_decide (s' = s))
  | _ => true
  end.

(** ['%s' % v] *)
Definition pyval_str (v : pyval) : string :=
  match v with
  | VNone => "None"
  | VBool true => "True"
  | VBool false => "False"
  | VStr s => s
  | VDict _ => "{...}"
  end.

Inductive member_type := REGTYPE | DIRTYPE | SYMTYPE.

(** A [tarfile.TarInfo]; [C] is the type of a member's payload. *)
Record TarInfo_ (C : Type) := TarInfo {
  name : string;
  type : member_type;
  linkname : string;
  uid : Z;
  gid : Z;
  mode : Z;
  payload : C;
}.
Arguments TarInfo {C}.
Arguments name {C}.
Arguments type {C}.
Arguments linkname {C}.
Arguments uid {C}.
Arguments gid {C}.
Arguments mode {C}.
Arguments payload {C}.

(** The configuration of a pack ([config.yml]), as [load_config] returns it. *)
Record Package := {
  pkg_name : string;
  pkg_version : string;
  packfiles : bool;
  files : list string;
}.

Record Run := {
  argv : list string;
  binary : string;
  workingdir : string;
  run_environ : list (string * string);
  architecture : string;
  run_uid : option Z;
  run_gid : option Z;
  input_files : list (string * string);
  output_files : list (string * string);
}.

Record Config := {
  runs : list Run;
  packages : list Package;
  other_files : list string;
}.

(** What a regular file holds: bytes, a pickled dictionary, a configuration
    in YAML, or an archive. *)
Inductive content :=
| Raw (bytes : string)
| Pickled (d : gmap string pyval)
| Yaml (cfg : Config)
| Tar (members : list (TarInfo_ content)).

Abbreviation TarInfo_t := (TarInfo_ content).

Record stat := Stat { st_mode : Z; st_uid : Z; st_gid : Z }.

(** The octal modes the code names. *)
Definition o755 : Z := 493.
Definition o644 : Z := 420.
Definition o700 : Z := 448.
Definition o7777 : Z := 4095.

(** A node of the file tree.  The tree is addressed lexically: a symbolic
    link is a leaf, and [exists] does not look through it. *)
Inductive node :=
| Dir (st : stat)
| File (c : content) (st : stat)
| Symlink (target : string).

(** ** The world *)

Inductive level := DEBUG | INFO | WARNING | ERROR | CRITICAL.

Inductive event :=
| ELog (l : level) (msg : string)      (* logging.<level>(msg) *)
| ESignal (sig : string)               (* signals.<sig>(...) *)
| EUsage (key : string) (v : pyval)    (* record_usage(key=v) *)
| EPrint (s : string)                  (* print, sys.stderr.write *)
| EStdout (chunk : content)            (* sys.stdout.buffer.write(chunk) *)
| ECall (cmd : string)                 (* an external command, run to its end *)
| EForward (port : Z).                 (* a LocalForwarder started on a port *)

(** An [X11Handler], by what the unpackers use of it. *)
Record X11Handler := {
  fix_env : list (string * string) → list (string * string);
  init_cmds : list string;
  port_forward : list (Z * string);
}.

Record world := World {
  fs : gmap (list string) node;   (* the file tree, by absolute segments *)
  cwd : list string;              (* the process' working directory *)
  euid : Z;                       (* os.getuid() *)
  egid : Z;                       (* os.getgid() *)
  environ : gmap string string;   (* os.environ *)
  status_of : string → Z;         (* exit status of an external command *)
  ldconfig : list string;         (* the lines [/sbin/ldconfig -v -N] prints *)
  fetch : string → option string; (* what a URL serves *)
  x11_handler : bool → option string → X11Handler;
                                  (* X11Handler(enabled, ..., display) *)
  tempfile : rpath;               (* the path [Path.tempfile] hands out *)
  posix : bool;                   (* DefaultAbstractPath is PosixPath *)
  encodable : string → bool;      (* the strings [Path(...)] can encode *)
  input_files_obj : pyval;        (* the dictionary object [upload] shares
                                     with its uploader *)
  trace : list event;             (* what the process emitted, oldest first *)
}.

Definition with_fs (f : gmap (list string) node → gmap (list string) node)
    (w : world) : world :=
  World (f (fs w)) (cwd w) (euid w) (egid w) (environ w) (status_of w)
        (ldconfig w) (fetch w) (x11_handler w) (tempfile w) (posix w)
        (encodable w) (input_files_obj w) (trace w).

Definition with_obj (v : pyval) (w : world) : world :=
  World (fs w) (cwd w) (euid w) (egid w) (environ w) (status_of w)
        (ldconfig w) (fetch w) (x11_handler w) (tempfile w) (posix w)
        (encodable w) v (trace w).

Definition with_event (e : event) (w : world) : world :=
  World (fs w) (cwd w) (euid w) (egid w) (environ w) (status_of w)
        (ldconfig w) (fetch w) (x11_handler w) (tempfile w) (posix w)
        (encodable w) (input_files_obj w) (trace w ++ [e]).

(** ** Exceptions and the monad *)

Inductive exn :=
| SystemExit (code : Z)
| UsageError
| KeyError (key : string)
| IOError (path : list string)
| ReadError
| UnpicklingError
| ConfigError
| UnicodeEncodeError
| IndexError
| TypeError
| AssertionError
| CalledProcessError (code : Z).

Inductive outcome (A : Type) :=
| Ok (a : A)
| Raise (e : exn).
Arguments Ok {A}.
Arguments Raise {A}.

Definition M (A : Type) : Type := world → outcome A * world.

Definition ret {A} (a : A) : M A := λ w, (Ok a, w).
Definition raise {A} (e : exn) : M A := λ w, (Raise e, w).
Definition bind {A B} (m : M A) (k : A → M B) : M B :=
  λ w, match m w with
       | (Ok a, w') => k a w'
       | (Raise e, w') => (Raise e, w')
       end.

Notation "'let!' x ':=' m 'in' k" := (bind m (λ x, k))
  (at level 10, x name, m at level 100, k at level 200,
   format "'[v' 'let!'  x  ':='  m  'in' '/' k ']'").
Notation "'let!' ' pat ':=' m 'in' k" :=
  (bind m (λ x, match x with pat => k end))
  (at level 10, pat pattern, m at level 100, k at level 200,
   format "'[v' 'let!'  ' pat  ':='  m  'in' '/' k ']'").
Notation "m >>> k" := (bind m (λ _, k))
  (at level 90, right associativity, format "'[v' m  >>> '/' k ']'").

(** [try: body finally: cleanup] — the cleanup runs on every way out of the
    body; an exception of the cleanup replaces the body's. *)
Definition try_finally {A} (body : M A) (cleanup : M unit) : M A :=
  λ w, match body w with
       | (o, w') =>
           match cleanup w' with
           | (Ok _, w'') => (o, w'')
           | (Raise e, w'') => (Raise e, w'')
           end
       end.

(** [try: body except E: handler]  *)
Definition try_except {A} (body : M A) (handler : exn → option (M A)) : M A :=
  λ w, match body w with
       | (Ok a, w') => (Ok a, w')
       | (Raise e, w') =>
           match handler e with
           | Some h => h w'
           | None => (Raise e, w')
           end
       end.

Definition get_world : M world := λ w, (Ok w, w).
Definition emit (e : event) : M unit := λ w, (Ok tt, with_event e w).
Definition modify_fs (f : gmap (list string) node → gmap (list string) node)
  : M unit := λ w, (Ok tt, with_fs f w).

Definition logging (l : level) (msg : string) : M unit := emit (ELog l msg).
Definition record_usage (key : string) (v : pyval) : M unit :=
  emit (EUsage key v).
Definition signal (sig : string) : M unit := emit (ESignal sig).
Definition sys_exit {A} (code : Z) : M A := raise (SystemExit code).

(** A loop that carries a variable: [for x in l: s = body x s] *)
Fixpoint fold_m {A S} (l : list A) (s : S) (body : A → S → M S) : M S :=
  match l with
  | [] => ret s
  | x :: l' => let! s' := body x s in fold_m l' s' body
  end.

(** [subprocess.call(cmd, shell=True)], [interruptible_call]: the command
    runs to its end and hands back its status. *)
Definition call (cmd : string) : M Z :=
  λ w, (Ok (status_of w cmd), with_event (ECall cmd) w).

(** [subprocess.check_call(cmd)] *)
Definition check_call (cmd : string) : M unit :=
  let! r := call cmd in
  if bool_decide (r = 0) then ret tt else raise (CalledProcessError r).

(** [for x in l: body x] *)
Fixpoint for_each {A} (l : list A) (body : A → M unit) : M unit :=
  match l with
  | [] => ret tt
  | x :: l' => body x >>> for_each l' body
  end.

(** Modelled from the spec: the status the process ends with, which the
    caller of the commands ([reprounzip.main]) decides: [sys.exit(n)] gives
    [n], and "any fatal setup/usage failure exits non-zero". *)
Definition exit_status {A} (o : outcome A) : Z :=
  match o with
  | Ok _ => 0
  | Raise (SystemExit n) => n
  | Raise _ => 1
  end.

(** ** The file system *)

Module FS.

(** The absolute segments a path denotes for the process. *)
Definition locate (w : world) (p : rpath) : list string :=
  if is_absolute p then segs p else Path.norm true [] (cwd w ++ segs p).

(** [p.absolute()] *)
Definition absolute (p : rpath) : M rpath :=
  λ w, (Ok (RPath true (locate w p)), w).

(** [p.resolve()]: the tree is addressed lexically, so resolving a path only
    makes it absolute. *)
Definition resolve (p : rpath) : M rpath := absolute p.

Definition lookup (p : rpath) : M (option node) :=
  λ w, (Ok (fs w !! locate w p), w).

(** [p.exists()], [p.lexists()] *)
Definition exists_ (p : rpath) : M bool :=
  let! n := lookup p in ret (bool_decide (is_Some n)).
Definition lexists (p : rpath) : M bool := exists_ p.

(** [p.is_dir()] *)
Definition is_dir (p : rpath) : M bool :=
  let! n := lookup p in
  ret (match n with Some (Dir _) => true | _ => false end).

(** [p.is_link()] *)
Definition is_link (p : rpath) : M bool :=
  let! n := lookup p in
  ret (match n with Some (Symlink _) => true | _ => false end).

(** [p.read_link()] *)
Definition read_link (p : rpath) : M string :=
  let! n := lookup p in
  match n with
  | Some (Symlink t) => ret t
  | _ => λ w, (Raise (IOError (locate w p)), w)
  end.

Definition put (p : rpath) (n : node) : M unit :=
  λ w, (Ok tt, with_fs (insert (locate w p) n) w).

Definition new_dir (w : world) : node := Dir (Stat o755 (euid w) (egid w)).

(** The proper ancestors of a path, outermost first. *)
Fixpoint ancestors (acc : list string) (l : list string)
  : list (list string) :=
  match l with
  | [] => []
  | x :: l' => acc :: ancestors (acc ++ [x]) l'
  end.

(** [os.makedirs]: every missing directory from the root down to [l]. *)
Definition makedirs_at (l : list string) (w : world) : world :=
  with_fs (λ m, foldl (λ m d, match m !! d with
                              | Some _ => m
                              | None => <[d := new_dir w]> m
                              end) m (ancestors [] l ++ [l])) w.

(** [p.mkdir(parents=...)]: nothing when the path exists already; without
    [parents] the parent directory has to be there. *)
Definition mkdir (parents : bool) (p : rpath) : M unit :=
  λ w, let l := locate w p in
       match fs w !! l with
       | Some _ => (Ok tt, w)
       | None =>
           if parents then (Ok tt, makedirs_at l w)
           else match fs w !! removelast l with
                | Some (Dir _) => (Ok tt, with_fs (insert l (new_dir w)) w)
                | _ => (Raise (IOError l), w)
                end
       end.

(** [p.open('rb').read()] *)
Definition read (p : rpath) : M content :=
  λ w, match fs w !! locate w p with
       | Some (File c _) => (Ok c, w)
       | _ => (Raise (IOError (locate w p)), w)
       end.

(** [p.open('wb').write(c)]: the file is created or its content replaced;
    its directory has to be there. *)
Definition write (p : rpath) (c : content) : M unit :=
  λ w, let l := locate w p in
       match fs w !! l with
       | Some (File _ st) => (Ok tt, with_fs (insert l (File c st)) w)
       | Some _ => (Raise (IOError l), w)
       | None =>
           match fs w !! removelast l with
           | Some (Dir _) =>
               (Ok tt, with_fs (insert l (File c (Stat o644 (euid w) (egid w)))) w)
           | _ => (Raise (IOError l), w)
           end
       end.

(** [p.stat()] *)
Definition stat_ (p : rpath) : M stat :=
  λ w, match fs w !! locate w p with
       | Some (File _ st) | Some (Dir st) => (Ok st, w)
       | _ => (Raise (IOError (locate w p)), w)
       end.

Definition set_stat (f : stat → stat) (p : rpath) : M unit :=
  λ w, let l := locate w p in
       match fs w !! l with
       | Some (File c st) => (Ok tt, with_fs (insert l (File c (f st))) w)
       | Some (Dir st) => (Ok tt, with_fs (insert l (Dir (f st))) w)
       | _ => (Raise (IOError l), w)
       end.

(** [p.chmod(mode)], [p.chown(uid, gid)] *)
Definition chmod (p : rpath) (m : Z) : M unit :=
  set_stat (λ st, Stat m (st_uid st) (st_gid st)) p.
Definition chown (p : rpath) (u g : Z) : M unit :=
  set_stat (λ st, Stat (st_mode st) u g) p.

(** [p.symlink(target)] *)
Definition symlink (p : rpath) (target : string) : M unit :=
  λ w, let l := locate w p in
       match fs w !! l with
       | Some _ => (Raise (IOError l), w)
       | None => (Ok tt, with_fs (insert l (Symlink target)) w)
       end.

(** [src.copyfile(dst)] *)
Definition copyfile (src dst : rpath) : M unit :=
  let! c := read src in write dst c.

(** [src.copy(dst)]: content and mode *)
Definition copy (src dst : rpath) : M unit :=
  let! c := read src in
  let! st := stat_ src in
  write dst c >>>
  let! st' := stat_ dst in
  chmod dst (st_mode st).

(** [src.copymode(dst)] *)
Definition copymode (src dst : rpath) : M unit :=
  let! st := stat_ src in chmod dst (st_mode st).

(** [p.remove()] *)
Definition remove (p : rpath) : M unit :=
  λ w, (Ok tt, with_fs (delete (locate w p)) w).

(** The tree below (and including) [l] is taken out of the file system. *)
Definition without_tree (l : list string)
    (m : gmap (list string) node) : gmap (list string) node :=
  filter (λ kv, ¬ l `prefix_of` kv.1) m.

(** [rmtree_fixed(p)] *)
Definition rmtree (p : rpath) : M unit :=
  λ w, (Ok tt, with_fs (without_tree (locate w p)) w).

End FS.

(** ** Archives (the [tarfile] module) *)

Module Tarfile.

Definition set_name (n : string) (m : TarInfo_t) : TarInfo_t :=
  TarInfo n (type m) (linkname m) (uid m) (gid m) (mode m) (payload m).
Definition set_linkname (l : string) (m : TarInfo_t) : TarInfo_t :=
  TarInfo (name m) (type m) l (uid m) (gid m) (mode m) (payload m).
Definition set_owner (u g : Z) (m : TarInfo_t) : TarInfo_t :=
  TarInfo (name m) (type m) (linkname m) u g (mode m) (payload m).

(** [m.issym()] *)
Definition issym (m : TarInfo_t) : bool :=
  match type m with SYMTYPE => true | _ => false end.

(** [tarfile.open(str(p), 'r:*')], then [tar.getmembers()] *)
Definition open_ (p : rpath) : M (list TarInfo_t) :=
  let! c := FS.read p in
  match c with
  | Tar ms => ret ms
  | _ => raise ReadError
  end.

(** [tar.getmember(n)]: the last member of that name. *)
Definition getmember (n : string) (ms : list TarInfo_t) : M TarInfo_t :=
  match List.find (λ m, bool_decide (name m = n)) (rev ms) with
  | Some m => ret m
  | None => raise (KeyError n)
  end.

(** [tar.getmember(n).name = new]: the member is an object of the archive's
    list, so the list sees its new name. *)
Fixpoint rename_first (n new : string) (ms : list TarInfo_t)
  : list TarInfo_t :=
  match ms with
  | [] => []
  | m :: ms' =>
      if bool_decide (name m = n) then set_name new m :: ms'
      else m :: rename_first n new ms'
  end.
Definition rename_member (n new : string) (ms : list TarInfo_t)
  : list TarInfo_t :=
  rev (rename_first n new (rev ms)).

(** [tar.extract(m, str(dest))]: the member lands at [dest / m.name], the
    directories above it are made; the owner recorded in the archive is only
    given to the file when the process runs as root. *)
Definition extract (m : TarInfo_t) (dest : rpath) : M unit :=
  let p := Path.join dest (Path.of_string (name m)) in
  FS.mkdir true (Path.parent p) >>>
  let! w := get_world in
  let u := if bool_decide (euid w = 0) then uid m else euid w in
  let g := if bool_decide (euid w = 0) then gid m else egid w in
  FS.put p match type m with
           | REGTYPE => File (payload m) (Stat (mode m) u g)
           | DIRTYPE => Dir (Stat (mode m) u g)
           | SYMTYPE => Symlink (linkname m)
           end.

(** [tar.extractall(str(dest), members)] *)
Definition extractall (dest : rpath) (members : list TarInfo_t) : M unit :=
  for_each members (λ m, extract m dest).

(** [tarfile.open(str(p), 'w:gz')] *)
Definition create (p : rpath) : M unit := FS.write p (Tar []).

(** [tar.add(str(src), arcname)]: a leading root marker is taken off the
    name a member is stored under. *)
Definition add (archive src : rpath) (arcname : string) : M unit :=
  let! n := FS.lookup src in
  let! ms := open_ archive in
  let stored := if Str.startswith "/" arcname then Str.drop 1 arcname
                else arcname in
  match n with
  | Some (File c st) =>
      FS.write archive
        (Tar (ms ++ [TarInfo stored REGTYPE "" (st_uid st) (st_gid st)
                             (st_mode st) c]))
  | Some (Dir st) =>
      FS.write archive
        (Tar (ms ++ [TarInfo stored DIRTYPE "" (st_uid st) (st_gid st)
                             (st_mode st) (Raw "")]))
  | Some (Symlink t) =>
      FS.write archive (Tar (ms ++ [TarInfo stored SYMTYPE t 0 0 0 (Raw "")]))
  | None => λ w, (Raise (IOError (FS.locate w src)), w)
  end.

End Tarfile.

(** ** The command line *)

(** The [argparse] namespace a command receives. *)
Record Args := {
  pack : list string;
  target : string;
  cmdline : option (list string);
  run : option string;
  x11 : bool;
  x11_display : option string;
  restore_owner : option bool;
  bind_magic_dirs : option bool;
  type_ : string;
  file : list string;
}.

(** [load_config_file(p, True)] *)
Definition load_config_file (p : rpath) : M Config :=
  let! c := FS.read p in
  match c with
  | Yaml cfg => ret cfg
  | _ => raise ConfigError
  end.

(** Modelled from the spec: the decorator [target_must_exist] of
    [reprounzip.unpackers.common]: a missing target is a Usage error, "fatal
    before any mutation". *)
Definition target_must_exist (func : Args → M unit) (args : Args) : M unit :=
  let! d := FS.is_dir (Path.of_string (target args)) in
  if d then func args
  else logging CRITICAL "Error: Target directory doesn't exist" >>>
       raise UsageError.

(** Modelled from the spec: [make_dir_writable] of [reprounzip.utils], "made
    temporarily writable for the duration" of the body, "original permissions
    restored afterward regardless of success or failure". *)
Definition make_dir_writable {A} (d : rpath) (body : M A) : M A :=
  let! st := FS.stat_ d in
  FS.chmod d (Z.lor (st_mode st) o700) >>>
  try_finally body (FS.chmod d (st_mode st)).

(** ** The persisted record of a target *)

Definition write_dict (filename : rpath) (dct : gmap string pyval)
    (type_ : string) : M unit :=
  (* to_write = {'unpacker': type_}; to_write.update(dct) *)
  let to_write := dct ∪ {["unpacker" := VStr type_]} in
  FS.write filename (Pickled to_write).

Definition read_dict (filename : rpath) (type_ : option string)
  : M (gmap string pyval) :=
  let! c := FS.read filename in
  match c with
  | Pickled dct =>
      match type_ with
      | None => ret dct
      | Some t =>
          match dct !! "unpacker" with
          | None => raise (KeyError "unpacker")
          | Some u =>
              if differs u t then
                logging CRITICAL
                  ("Wrong unpacker used: " ++ pyval_str u ++ " != " ++ t) >>>
                raise UsageError
              else ret dct
          end
      end
  | _ => raise UnpicklingError
  end.

(** [dct.get(key, False)] *)
Definition get_flag (dct : gmap string pyval) (key : string) : pyval :=
  default (VBool false) (dct !! key).

(** ** The privilege switches *)

Definition should_restore_owner (param : option bool) : M bool :=
  let! w := get_world in
  let! r :=
    if negb (bool_decide (euid w = 0)) then
      match param with
      | Some true =>
          logging CRITICAL
            "Not running as root, cannot restore files' owner/group as requested" >>>
          sys_exit 1
      | None =>
          logging WARNING
            "Not running as root, won't restore files' owner/group" >>>
          ret false
      | Some false => ret false
      end
    else
      match param with
      | None =>
          logging INFO "Running as root, we will restore files' owner/group" >>>
          ret true
      | Some true => ret true
      | Some false => ret false
      end in
  record_usage "restore_owner" (VBool r) >>>
  ret r.

Definition should_mount_magic_dirs (param : option bool) : M bool :=
  let! w := get_world in
  let! r :=
    if negb (bool_decide (euid w = 0)) then
      match param with
      | Some true =>
          logging CRITICAL "Not running as root, cannot mount /dev and /proc" >>>
          sys_exit 1
      | None =>
          logging WARNING "Not running as root, won't mount /dev and /proc" >>>
          ret false
      | Some false => ret false
      end
    else
      match param with
      | None =>
          logging INFO "Running as root, will mount /dev and /proc" >>>
          ret true
      | Some true => ret true
      | Some false => ret false
      end in
  record_usage "mount_magic_dirs" (VBool r) >>>
  ret r.

(** ** Helpers shared by the unpackers *)

(** [d[k] = v] on a dictionary that keeps the order of its keys *)
Fixpoint assoc_set (k v : string) (d : list (string * string))
  : list (string * string) :=
  match d with
  | [] => [(k, v)]
  | (k', v') :: d' =>
      if bool_decide (k' = k) then (k, v) :: d'
      else (k', v') :: assoc_set k v d'
  end.

(** [d.get(k)] *)
Fixpoint assoc_get (k : string) (d : list (string * string))
  : option string :=
  match d with
  | [] => None
  | (k', v') :: d' => if bool_decide (k' = k) then Some v' else assoc_get k d'
  end.

(** [Path(s)], which raises [UnicodeEncodeError] on a string the file-system
    encoding cannot express. *)
Definition parse_path (s : string) : M rpath :=
  λ w, if encodable w s then (Ok (Path.of_string s), w)
       else (Raise UnicodeEncodeError, w).

(** The directories [/sbin/ldconfig -v -N] lists: the lines that are a
    directory header. *)
Definition lib_dir_of_line (l : string) : option rpath :=
  if (String.length l <? 3)%nat
     || Str.startswith " " l || Str.startswith TAB l then None
  else if Str.endswith (":" ++ LF) l then Some (Path.of_string (Str.chop 2 l))
  else None.

Definition get_lib_dirs : M (list rpath) :=
  λ w, (Ok (omap lib_dir_of_line (ldconfig w)),
        with_event (ECall "/sbin/ldconfig -v -N") w).

(** The original input files are packed, so that upload can restore them. *)
Definition pack_inputs (target root : rpath) (runs : list Run) : M unit :=
  if existsb (λ r, negb (bool_decide (input_files r = []))) runs then
    logging INFO "Packing up original input files..." >>>
    Tarfile.create (target // "inputs.tar.gz") >>>
    for_each runs (λ r,
      for_each (input_files r) (λ nf,
        Tarfile.add (target // "inputs.tar.gz")
                    (join_root root (Path.of_string nf.2))
                    (Path.to_string (Path.of_string nf.2))))
  else ret tt.

(** The test every setup makes on the names of the archive. *)
Definition invalid_name (m : TarInfo_t) : bool :=
  Str.contains ".." (name m) || Str.startswith "/" (name m).

(** The members under [DATA/], their names taken from below it. *)
Definition data_members (tar : list TarInfo_t) : list TarInfo_t :=
  map (λ m, Tarfile.set_name (Str.drop 5 (name m)) m)
      (List.filter (λ m, Str.startswith "DATA/" (name m)) tar).

(** "Makes symlink targets relative": an absolute target is moved below
    the root. *)
Definition relink (root : rpath) (m : TarInfo_t) : TarInfo_t :=
  if negb (Tarfile.issym m) then m
  else
    let linkname := Path.of_string (linkname m) in
    if is_absolute linkname then
      Tarfile.set_linkname (Path.to_string (join_root root linkname)) m
    else m.


(** ** A pack, a host and unpacked targets to run the commands on *)

Module Ex.

Definition run0 : Run := {|
  argv := ["/usr/bin/prog"; "-o"; "/out/result.txt"];
  binary := "/usr/bin/prog";
  workingdir := "/home/user";
  run_environ := [("PATH", "/usr/bin"); ("LANG", "C")];
  architecture := "x86_64";
  run_uid := None;
  run_gid := None;
  input_files := [("in", "/home/user/in.txt")];
  output_files := [("out", "/out/result.txt"); ("log", "/home/user/log.txt")];
|}.

Definition cfg : Config :=
  {| runs := [run0]; packages := []; other_files := [] |}.

Definition reg (n : string) (c : content) : TarInfo_t :=
  TarInfo n REGTYPE "" 1000 1000 o644 c.

(** A well-formed pack: its configuration, a program, an input file and a
    symbolic link with an absolute target. *)
Definition good_pack : list TarInfo_t :=
  [ reg "METADATA/config.yml" (Yaml cfg);
    reg "DATA/usr/bin/prog" (Raw "#!prog");
    reg "DATA/home/user/in.txt" (Raw "input");
    TarInfo "DATA/home/user/lnk" SYMTYPE "/usr/bin/prog" 1000 1000 o755 (Raw "") ].

(** The same pack with one more member, whose name climbs out of the root. *)
Definition evil_pack : list TarInfo_t :=
  (good_pack ++ [reg "DATA/../../evil" (Raw "gotcha")])%list.

Definition d : node := Dir (Stat o755 1000 1000).
Definition f (c : content) : node := File c (Stat o644 1000 1000).

Definition no_x11 : X11Handler :=
  {| fix_env := id; init_cmds := []; port_forward := [] |}.

Definition world_of (tree : gmap (list string) node) : world := {|
  fs := tree;
  cwd := ["work"];
  euid := 1000;
  egid := 1000;
  environ := ∅;
  status_of := λ _, 0;
  ldconfig := ["/lib:" ++ LF; TAB ++ "libc.so.6 -> libc-2.19.so" ++ LF];
  fetch := λ _, Some "busybox";
  x11_handler := λ _ _, no_x11;
  tempfile := RPath true ["tmp"; "reprozip_input_1"];
  posix := true;
  encodable := λ _, true;
  input_files_obj := VNone;
  trace := [];
|}.

(** A host that holds the two packs and no target yet. *)
Definition host : world :=
  world_of (list_to_map
    [ ([], d); (["work"], d); (["tmp"], d); (["packs"], d);
      (["packs"; "good.rpz"], f (Tar good_pack));
      (["packs"; "evil.rpz"], f (Tar evil_pack)) ]).

(** The tree of a target unpacked at [/t], whose record is [record]. *)
Definition target_tree (record : gmap string pyval)
  : gmap (list string) node :=
  list_to_map
    [ ([], d); (["work"], d); (["tmp"], d);
      (["t"], d);
      (["t"; ".reprounzip"], f (Pickled record));
      (["t"; "config.yml"], f (Yaml cfg));
      (["t"; "inputs.tar.gz"], f (Tar []));
      (["t"; "root"], d);
      (["t"; "root"; "dev"], d);
      (["t"; "root"; "proc"], d);
      (["t"; "root"; "usr"], d);
      (["t"; "root"; "usr"; "bin"], d);
      (["t"; "root"; "usr"; "bin"; "prog"], f (Raw "#!prog"));
      (["t"; "root"; "home"], d);
      (["t"; "root"; "home"; "user"], d);
      (["t"; "root"; "home"; "user"; "in.txt"], f (Raw "input"));
      (["t"; "root"; "home"; "user"; "log.txt"], f (Raw "done")) ].

(** A chroot target with the magic directories mounted, one without, and a
    directory target. *)
Definition mounted_record : gmap string pyval :=
  {["unpacker" := VStr "chroot"; "mounted" := VBool true]}.
Definition chroot_record : gmap string pyval :=
  {["unpacker" := VStr "chroot"]}.
Definition directory_record : gmap string pyval :=
  {["unpacker" := VStr "directory"]}.

Definition mounted_chroot : world := world_of (target_tree mounted_record).
Definition plain_chroot : world := world_of (target_tree chroot_record).
Definition directory_target : world :=
  world_of (target_tree directory_record).

Definition args0 : Args := {|
  pack := [];
  target := "/t";
  cmdline := None;
  run := None;
  x11 := false;
  x11_display := None;
  restore_owner := None;
  bind_magic_dirs := None;
  type_ := "chroot";
  file := [];
|}.

Definition setup_args (p : string) : Args := {|
  pack := [p];
  target := "/t";
  cmdline := None;
  run := None;
  x11 := false;
  x11_display := None;
  restore_owner := None;
  bind_magic_dirs := None;
  type_ := "";
  file := [];
|}.


(** The first run, whatever was asked for. *)
Definition first_run (rs : list Run) (r : option string)
    (c : option (list string)) : M (list nat) := ret [0%nat].

End Ex.
Section Unpackers.

(** Helpers of [reprounzip.unpackers.common] the unpackers only call. *)
Variable shell_escape : string → string.
Variable busybox_url : string → string.
Variable get_runs : list Run → option string → option (list string)
                    → M (list nat).

(** ** The [directory] unpacker *)

(** "Unpacks files" in [directory_create]: the names of all the members are
    looked at, then the members under [DATA/] are extracted below the root. *)
Definition directory_unpack_files (tar : list TarInfo_t) (root : rpath)
  : M unit :=
  if existsb invalid_name tar then
    logging CRITICAL "Tar archive contains invalid pathnames" >>> sys_exit 1
  else
  let members := data_members tar in
  (* Makes symlink targets relative *)
  let members := map (relink root) members in
  logging INFO "Extracting files..." >>>
  Tarfile.extractall root members.

Definition directory_create (args : Args) : M unit :=
  if bool_decide (pack args = []) then
    logging CRITICAL "setup needs the pack filename" >>> sys_exit 1
  else
  let pack := Path.of_string (hd "" (pack args)) in
  let target := Path.of_string (target args) in
  let! e := FS.exists_ target in
  if e then logging CRITICAL "Target directory exists" >>> sys_exit 1 else
  let! w := get_world in
  if negb (posix w) then
    logging CRITICAL "Not unpacking on POSIX system" >>> sys_exit 1
  else
  signal "pre_setup" >>>
  (* Unpacks configuration file *)
  let! tar := Tarfile.open_ pack in
  let! member := Tarfile.getmember "METADATA/config.yml" tar in
  let tar := Tarfile.rename_member "METADATA/config.yml" "config.yml" tar in
  Tarfile.extract (Tarfile.set_name "config.yml" member) target >>>
  (* Loads config *)
  let! cfg := load_config_file (target // "config.yml") in
  FS.mkdir false target >>>
  let! root := FS.absolute (target // "root") in
  FS.mkdir false root >>>
  (* Checks packages *)
  let! missing_files :=
    fold_m (packages cfg) false (λ pkg missing,
      if packfiles pkg then ret missing
      else fold_m (files pkg) missing (λ f missing,
        let! e := FS.exists_ (Path.of_string f) in
        if e then ret missing
        else logging ERROR
               ("Missing file " ++ f ++ " (from package " ++ pkg_name pkg
                ++ " that wasn't packed) on host, experiment will probably miss it.")
             >>> ret true)) in
  (if missing_files then
     record_usage "directory_missing_pkgs" (VBool true) >>>
     logging ERROR "Some packages are missing, you should probably install them."
   else ret tt) >>>
  (* Unpacks files *)
  directory_unpack_files tar root >>>
  (* Gets library paths *)
  let! lib_dirs := get_lib_dirs in
  (* Original input files, so upload can restore them *)
  pack_inputs target root (runs cfg) >>>
  (* Meta-data for reprounzip *)
  write_dict (target // ".reprounzip") ∅ "directory" >>>
  signal "post_setup".

(** The rewriting of one argument of the recorded command line: the new
    argument, and whether it was rewritten. *)
Definition rewrite_arg (root : rpath) (a : string) : M (string * bool) :=
  try_except
    (let! p := parse_path a in
     if is_absolute p then
       let rp := join_root root p in
       let! e := FS.exists_ rp in
       let! pe := FS.exists_ (Path.parent rp) in
       if e || ((3 <? length (Path.components rp))%nat && pe)
       then ret (Path.to_string rp, true)
       else ret (a, false)
     else ret (a, false))
    (λ e, match e with
          | UnicodeEncodeError => Some (ret (a, false))
          | _ => None
          end).

(** [for i in irange(len(argv)): ...]: the rewritten list and the flag. *)
Fixpoint rewrite_argv (root : rpath) (argv : list string)
  : M (list string * bool) :=
  match argv with
  | [] => ret ([], false)
  | a :: rest =>
      let! ' (a', r1) := rewrite_arg root a in
      let! ' (rest', r2) := rewrite_argv root rest in
      ret (a' :: rest', r1 || r2)
  end.

Definition set_argv (argv' : list string) (r : Run) : Run :=
  Build_Run argv' (binary r) (workingdir r) (run_environ r) (architecture r)
            (run_uid r) (run_gid r) (input_files r) (output_files r).
Definition set_environ (env' : list (string * string)) (r : Run) : Run :=
  Build_Run (argv r) (binary r) (workingdir r) env' (architecture r)
            (run_uid r) (run_gid r) (input_files r) (output_files r).

(** [runs[n]] *)
Definition nth_run (rs : list Run) (n : nat) : M Run :=
  match rs !! n with
  | Some r => ret r
  | None => raise IndexError
  end.

(** One turn of the loop of [directory_run] over the selected runs.  The run
    is an object of the configuration: what the turn writes into its
    environment and its arguments stays there for the next turn. *)
Definition directory_run_one (args : Args) (root : rpath) (run_number : nat)
    (st : list Run * list string) : M (list Run * list string) :=
  let '(runs, cmds) := st in
  let! run := nth_run runs run_number in
  let cmd := "cd " ++ shell_escape
               (Path.to_string (join_root root (Path.of_string (workingdir run))))
             ++ " && " in
  let cmd := cmd ++ "/usr/bin/env -i " in
  let! w := get_world in
  let environ_ := run_environ run in
  let environ_ :=
    if x11 args then
      let e1 := match environ w !! "DISPLAY" with
                | Some v => assoc_set "DISPLAY" v environ_
                | None => environ_
                end in
      match environ w !! "XAUTHORITY" with
      | Some v => assoc_set "XAUTHORITY" v e1
      | None => e1
      end
    else environ_ in
  let cmd := cmd ++ Str.join " "
               (map (λ kv, kv.1 ++ "=" ++ shell_escape kv.2)
                    (List.filter (λ kv, negb (bool_decide (kv.1 = "PATH")))
                                 environ_)) in
  let cmd := cmd ++ " " in
  (* PATH *)
  let path := map Path.of_string
                (Str.split ":"%char (default "" (assoc_get "PATH" environ_))) in
  let dir_path := map (join_root root) (List.filter is_absolute path) in
  let path := Str.join ":" (map Path.to_string (dir_path ++ path)) in
  let cmd := cmd ++ "PATH=" ++ shell_escape path ++ " " in
  let! ' (argv_, run) :=
    match cmdline args with
    | None =>
        let! ' (argv', rewritten) := rewrite_argv root (argv run) in
        (if rewritten then
           logging WARNING ("Rewrote command-line as: "
                            ++ Str.join " " (map shell_escape argv'))
         else ret tt) >>>
        ret (argv', set_argv argv' run)
    | Some c => ret (c, run)
    end in
  let cmd := cmd ++ Str.join " " (map shell_escape argv_) in
  ret (<[run_number := set_environ environ_ run]> runs, (cmds ++ [cmd])%list).

Definition directory_run_body (args : Args) : M unit :=
  let target := Path.of_string (target args) in
  read_dict (target // ".reprounzip") (Some "directory") >>>
  let cmdline := cmdline args in
  (* Loads config *)
  let! cfg := load_config_file (target // "config.yml") in
  let! selected_runs := get_runs (runs cfg) (run args) cmdline in
  let! root := FS.absolute (target // "root") in
  (* Gets library paths *)
  let! lib_dirs := get_lib_dirs in
  let lib_dirs := "export LD_LIBRARY_PATH=" ++
    Str.join ":" (map (λ d, shell_escape (Path.to_string (join_root root d)))
                      lib_dirs) in
  let! ' (_, cmds) :=
    fold_m selected_runs (runs cfg, [lib_dirs]) (directory_run_one args root) in
  let cmds := Str.join " && " cmds in
  signal "pre_run" >>>
  let! retcode := call cmds in
  emit (EPrint (LF ++ "*** Command finished, status: " ++ pretty retcode ++ LF)) >>>
  signal "post_run".

Definition directory_run : Args → M unit :=
  target_must_exist directory_run_body.

Definition directory_destroy_body (args : Args) : M unit :=
  let target := Path.of_string (target args) in
  read_dict (target // ".reprounzip") (Some "directory") >>>
  logging INFO ("Removing directory " ++ Path.to_string target ++ "...") >>>
  signal "pre_destroy" >>>
  FS.rmtree target >>>
  signal "post_destroy".

Definition directory_destroy : Args → M unit :=
  target_must_exist directory_destroy_body.

(** ** The [chroot] unpacker *)

(** [download_file(url, dest)] of [reprounzip.utils] *)
Definition download_file (url : string) (dest : rpath) : M unit :=
  let! w := get_world in
  match fetch w url with
  | Some bytes => FS.write dest (Raw bytes)
  | None => raise (IOError (FS.locate w dest))
  end.

(** "Unpacks files" in [chroot_create] *)
Definition chroot_unpack_files (tar : list TarInfo_t) (root : rpath)
    (restore_owner : bool) : M unit :=
  if existsb invalid_name tar then
    logging CRITICAL "Tar archive contains invalid pathnames" >>> sys_exit 1
  else
  let members := data_members tar in
  let! w := get_world in
  let members :=
    if negb restore_owner then
      map (Tarfile.set_owner (euid w) (egid w)) members
    else members in
  logging INFO "Extracting files..." >>>
  Tarfile.extractall root members.

Definition chroot_create (args : Args) : M unit :=
  if bool_decide (pack args = []) then
    logging CRITICAL "setup/create needs the pack filename" >>> sys_exit 1
  else
  let pack := Path.of_string (hd "" (pack args)) in
  let target := Path.of_string (target args) in
  let! e := FS.exists_ target in
  if e then logging CRITICAL "Target directory exists" >>> sys_exit 1 else
  let! w := get_world in
  if negb (posix w) then
    logging CRITICAL "Not unpacking on POSIX system" >>> sys_exit 1
  else
  signal "pre_setup" >>>
  (* We can only restore owner/group of files if running as root *)
  let! restore_owner := should_restore_owner (restore_owner args) in
  (* Unpacks configuration file *)
  let! tar := Tarfile.open_ pack in
  let! member := Tarfile.getmember "METADATA/config.yml" tar in
  let tar := Tarfile.rename_member "METADATA/config.yml" "config.yml" tar in
  Tarfile.extract (Tarfile.set_name "config.yml" member) target >>>
  (* Loads config *)
  let! cfg := load_config_file (target // "config.yml") in
  FS.mkdir false target >>>
  let! root := FS.absolute (target // "root") in
  FS.mkdir false root >>>
  (* Checks that everything was packed *)
  let packages_not_packed :=
    List.filter (λ pkg, negb (packfiles pkg)) (packages cfg) in
  (if negb (bool_decide (packages_not_packed = [])) then
     record_usage "chroot_missing_pkgs" (VBool true) >>>
     logging WARNING
       ("According to configuration, some files were left out because they belong to the following packages:"
        ++ String.concat "" (map (λ pkg, LF ++ "    " ++ pkg_name pkg)
                                 packages_not_packed)
        ++ LF ++ "Will copy files from HOST SYSTEM") >>>
     let! missing_files :=
       fold_m packages_not_packed false (λ pkg missing,
         fold_m (files pkg) missing (λ f missing,
           let f := Path.of_string f in
           let! e := FS.exists_ f in
           if negb e then
             logging ERROR
               ("Missing file " ++ Path.to_string f ++ " (from package "
                ++ pkg_name pkg ++ ") on host, experiment will probably miss it")
             >>> ret true
           else
             let dest := join_root root f in
             FS.mkdir true (Path.parent dest) >>>
             let! l := FS.is_link f in
             (if l then let! t := FS.read_link f in FS.symlink dest t
              else FS.copy f dest) >>>
             (if restore_owner then
                let! st := FS.stat_ f in
                FS.chown dest (st_uid st) (st_gid st)
              else ret tt) >>>
             ret missing)) in
     if missing_files then record_usage "chroot_mising_files" (VBool true)
     else ret tt
   else ret tt) >>>
  (* Unpacks files *)
  chroot_unpack_files tar root restore_owner >>>
  (* Sets up /bin/sh and /usr/bin/env, downloading busybox if necessary *)
  let sh_path := join_root root (Path.of_string "/bin/sh") in
  let env_path := join_root root (Path.of_string "/usr/bin/env") in
  let! has_sh := FS.lexists sh_path in
  let! has_env := FS.lexists env_path in
  (if negb has_sh || negb has_env then
     logging INFO "Setting up busybox..." >>>
     let busybox_path := join_root root (Path.of_string "/bin/busybox") in
     FS.mkdir true (Path.parent busybox_path) >>>
     make_dir_writable (join_root root (Path.of_string "/bin"))
       (let! run0 := nth_run (runs cfg) 0 in
        download_file (busybox_url (architecture run0)) busybox_path >>>
        FS.chmod busybox_path o755 >>>
        let! has_sh := FS.lexists sh_path in
        (if negb has_sh then
           FS.mkdir true (Path.parent sh_path) >>>
           FS.symlink sh_path "/bin/busybox"
         else ret tt) >>>
        let! has_env := FS.lexists env_path in
        if negb has_env then
          FS.mkdir true (Path.parent env_path) >>>
          FS.symlink env_path "/bin/busybox"
        else ret tt)
   else ret tt) >>>
  (* Original input files, so upload can restore them *)
  pack_inputs target root (runs cfg) >>>
  (* Meta-data for reprounzip *)
  write_dict (target // ".reprounzip") ∅ "chroot" >>>
  signal "post_setup".

Definition chroot_mount_body (args : Args) : M unit :=
  let target := Path.of_string (target args) in
  read_dict (target // ".reprounzip") (Some "chroot") >>>
  for_each ["/dev"; "/dev/pts"; "/proc"] (λ m,
    let d := join_root (target // "root") (Path.of_string m) in
    FS.mkdir true d >>>
    logging INFO ("Mounting " ++ m ++ " on " ++ Path.to_string d ++ "...") >>>
    check_call ("mount -o bind " ++ m ++ " " ++ Path.to_string d)) >>>
  write_dict (target // ".reprounzip") {["mounted" := VBool true]} "chroot" >>>
  logging WARNING
    "The host's /dev and /proc have been mounted into the chroot. Do NOT remove the unpacked directory with rm -rf, it WILL WIPE the host's /dev directory.".

Definition chroot_mount : Args → M unit := target_must_exist chroot_mount_body.

(** The arguments [chroot_run] runs: the override, or the recorded binary
    and the recorded arguments after the first. *)
Definition chroot_argv (cmdline : option (list string)) (run : Run)
  : list string :=
  match cmdline with
  | None => binary run :: tail (argv run)
  | Some c => c
  end.

Definition chroot_run_body (args : Args) : M unit :=
  let target := Path.of_string (target args) in
  read_dict (target // ".reprounzip") (Some "chroot") >>>
  let cmdline := cmdline args in
  (* Loads config *)
  let! cfg := load_config_file (target // "config.yml") in
  let! selected_runs := get_runs (runs cfg) (run args) cmdline in
  let root := target // "root" in
  (* X11 handler *)
  let! w := get_world in
  let x11 := x11_handler w (x11 args) (x11_display args) in
  let! cmds :=
    fold_m selected_runs [] (λ run_number cmds,
      let! run := nth_run (runs cfg) run_number in
      let cmd := "cd " ++ shell_escape (workingdir run) ++ " && " in
      let cmd := cmd ++ "/usr/bin/env -i " in
      let environ_ := fix_env x11 (run_environ run) in
      let cmd := cmd ++ Str.join " "
                   (map (λ kv, kv.1 ++ "=" ++ shell_escape kv.2) environ_) in
      let cmd := cmd ++ " " in
      let argv_ := chroot_argv cmdline run in
      let cmd := cmd ++ Str.join " " (map shell_escape argv_) in
      let userspec := pretty (default 1000 (run_uid run)) ++ ":"
                      ++ pretty (default 1000 (run_gid run)) in
      let cmd := "chroot --userspec=" ++ userspec ++ " "
                 ++ shell_escape (Path.to_string root) ++ " /bin/sh -c "
                 ++ shell_escape cmd in
      ret (cmds ++ [cmd])%list) in
  let init := map (λ c, "chroot " ++ shell_escape (Path.to_string root)
                        ++ " /bin/sh -c " ++ shell_escape c)
                  (init_cmds x11) in
  let cmds := (init ++ cmds)%list in
  let cmds := Str.join " && " cmds in
  (* Starts forwarding *)
  for_each (port_forward x11) (λ pc, emit (EForward pc.1)) >>>
  signal "pre_run" >>>
  let! retcode := call cmds in
  emit (EPrint (LF ++ "*** Command finished, status: " ++ pretty retcode ++ LF)) >>>
  signal "post_run".

Definition chroot_run : Args → M unit := target_must_exist chroot_run_body.

(** Unmount magic directories, if they are mounted. *)
Definition chroot_unmount (target : rpath) : M bool :=
  let! unpacked_info := read_dict (target // ".reprounzip") (Some "chroot") in
  let mounted := get_flag unpacked_info "mounted" in
  if negb (truthy mounted) then ret false else
  let! target := FS.resolve target in
  for_each ["/dev"; "/proc"] (λ m,
    let d := join_root (target // "root") (Path.of_string m) in
    let! e := FS.exists_ d in
    if e then
      logging INFO ("Unmounting " ++ Path.to_string d ++ "...") >>>
      (* Unmounts recursively *)
      check_call ("grep " ++ Path.to_string d ++ " /proc/mounts | cut -f2 -d"
                  ++ DQUOTE ++ " " ++ DQUOTE ++ " | sort -r | xargs umount")
    else ret tt) >>>
  let unpacked_info := <["mounted" := VBool false]> unpacked_info in
  write_dict (target // ".reprounzip") unpacked_info "chroot" >>>
  ret true.

Definition chroot_destroy_unmount_body (args : Args) : M unit :=
  let target := Path.of_string (target args) in
  let! r := chroot_unmount target in
  if negb r then
    logging CRITICAL "Magic directories were not mounted" >>> sys_exit 1
  else ret tt.

Definition chroot_destroy_unmount : Args → M unit :=
  target_must_exist chroot_destroy_unmount_body.

Definition chroot_destroy_dir_body (args : Args) : M unit :=
  let target := Path.of_string (target args) in
  let! info := read_dict (target // ".reprounzip") (Some "chroot") in
  let mounted := get_flag info "mounted" in
  if truthy mounted then
    logging CRITICAL "Magic directories might still be mounted" >>> sys_exit 1
  else
  logging INFO ("Removing directory " ++ Path.to_string target ++ "...") >>>
  signal "pre_destroy" >>>
  FS.rmtree target >>>
  signal "post_destroy".

Definition chroot_destroy_dir : Args → M unit :=
  target_must_exist chroot_destroy_dir_body.

(** Destroys the directory, unmounting first if necessary. *)
Definition chroot_destroy_body (args : Args) : M unit :=
  let target := Path.of_string (target args) in
  chroot_unmount target >>>
  logging INFO ("Removing directory " ++ Path.to_string target ++ "...") >>>
  signal "pre_destroy" >>>
  FS.rmtree target >>>
  signal "post_destroy".

Definition chroot_destroy : Args → M unit :=
  target_must_exist chroot_destroy_body.

(** Does both create and mount depending on --bind-magic-dirs. *)
Definition chroot_setup (args : Args) : M unit :=
  chroot_create args >>>
  let! m := should_mount_magic_dirs (bind_magic_dirs args) in
  if m then chroot_mount args else ret tt.

(** ** Upload and download *)

(** The dictionary [input_files] is one object: [upload] holds it inside
    [unpacked_info] and hands it to the uploader, which writes into it. *)
Definition get_obj : M pyval := λ w, (Ok (input_files_obj w), w).
Definition set_obj (v : pyval) : M unit := λ w, (Ok tt, with_obj v w).

(** [input_files.pop(k, None)] and [input_files[k] = v] *)
Definition obj_pop (k : string) : M unit :=
  let! v := get_obj in
  match v with
  | VDict d => set_obj (VDict (delete k d))
  | _ => raise TypeError
  end.
Definition obj_setitem (k v : string) : M unit :=
  let! o := get_obj in
  match o with
  | VDict d => set_obj (VDict (<[k := v]> d))
  | _ => raise TypeError
  end.

(** What the uploader keeps in [self]. *)
Record LocalUploader_self := {
  up_target : rpath;
  up_type : string;
  up_param_restore_owner : option bool;
  up_restore_owner : bool;
  up_root : rpath;
}.

Definition prepare_upload (self : LocalUploader_self) : M LocalUploader_self :=
  (* self.type == 'chroot' and should_restore_owner(...) *)
  let! ro := if bool_decide (up_type self = "chroot")
             then should_restore_owner (up_param_restore_owner self)
             else ret false in
  let! root := FS.absolute (up_target self // "root") in
  ret (Build_LocalUploader_self (up_target self) (up_type self)
         (up_param_restore_owner self) ro root).

Definition extract_original_input (self : LocalUploader_self)
    (input_name : string) (input_path temp : rpath) : M rpath :=
  let! tar := Tarfile.open_ (up_target self // "inputs.tar.gz") in
  let! member :=
    Tarfile.getmember
      (Path.to_string (join_root (Path.of_string "") input_path)) tar in
  Tarfile.extract (Tarfile.set_name (Path.name temp) member)
                  (Path.parent temp) >>>
  ret temp.

Definition upload_file (self : LocalUploader_self)
    (local_path input_path : rpath) : M unit :=
  let remote_path := join_root (up_root self) input_path in
  (* Copy *)
  let! orig_stat := FS.stat_ remote_path in
  make_dir_writable (Path.parent remote_path)
    (FS.copyfile local_path remote_path >>>
     FS.chmod remote_path (Z.land (st_mode orig_stat) o7777) >>>
     if up_restore_owner self then
       FS.chown remote_path (st_uid orig_stat) (st_gid orig_stat)
     else ret tt).

(** The files of every run, by name; a later run's name wins. *)
Definition all_files (sel : Run → list (string * string)) (runs : list Run)
  : list (string * string) :=
  concat (map sel (rev runs)).

(** Modelled from the spec: one upload specification handled by
    [FileUploader] of [reprounzip.unpackers.common]: "[:role] → restore
    pristine copy; [localfile:role] → replace with local file". *)
Definition upload_spec (self : LocalUploader_self)
    (all_input_files : list (string * string)) (filespec : string) : M unit :=
  match Str.rsplit_once ":"%char filespec with
  | None =>
      logging CRITICAL ("Invalid file specification: " ++ filespec) >>>
      sys_exit 1
  | Some (local_path, input_name) =>
      match assoc_get input_name all_input_files with
      | None =>
          logging CRITICAL ("Invalid input file: " ++ input_name) >>>
          sys_exit 1
      | Some ip =>
          let input_path := Path.of_string ip in
          if bool_decide (local_path = "") then
            (* Restore original file from pack *)
            let! w := get_world in
            let temp := tempfile w in
            FS.put temp (File (Raw "") (Stat 384 (euid w) (egid w))) >>>
            let! local_path :=
              extract_original_input self input_name input_path temp in
            upload_file self local_path input_path >>>
            FS.remove temp >>>
            obj_pop input_name
          else
            let local_path := Path.of_string local_path in
            let! e := FS.exists_ local_path in
            if negb e then
              logging CRITICAL ("Local file " ++ Path.to_string local_path
                                ++ " doesn't exist") >>>
              sys_exit 1
            else
              upload_file self local_path input_path >>>
              let! a := FS.absolute local_path in
              obj_setitem input_name (Path.to_string a)
      end
  end.

(** Modelled from the spec: the run of [FileUploader] of
    [reprounzip.unpackers.common] over the specifications of one command:
    "without arguments, lists input files", else every specification is
    handled in turn. *)
Definition LocalUploader (target : rpath) (files : list string)
    (type_ : string) (param_restore_owner : option bool) : M unit :=
  let self := Build_LocalUploader_self target type_ param_restore_owner
                false (RPath false []) in
  let! cfg := load_config_file (target // "config.yml") in
  if bool_decide (files = []) then
    emit (EPrint "Input files:") >>>
    for_each (runs cfg) (λ r,
      for_each (input_files r) (λ nf, emit (EPrint ("    " ++ nf.1))))
  else
    let! self := prepare_upload self in
    for_each files (upload_spec self (all_files input_files (runs cfg))).

(** Replaces an input file in the directory. *)
Definition upload_body (args : Args) : M unit :=
  let target := Path.of_string (target args) in
  let files := file args in
  let! unpacked_info :=
    read_dict (target // ".reprounzip") (Some (type_ args)) in
  (* input_files = unpacked_info.setdefault('input_files', {}) *)
  set_obj (default (VDict ∅) (unpacked_info !! "input_files")) >>>
  try_finally
    (LocalUploader target files (type_ args)
       (* args.type == 'chroot' and args.restore_owner *)
       (if bool_decide (type_ args = "chroot") then restore_owner args
        else Some false))
    (let! input_files := get_obj in
     write_dict (target // ".reprounzip")
                (<["input_files" := input_files]> unpacked_info)
                (type_ args)).

Definition upload : Args → M unit := target_must_exist upload_body.

(** [fp.read(1024)] after [fp.read(1024)]: the chunks of a file, each
    written as it is read. *)
Fixpoint write_chunks (fuel : nat) (bytes : string) : M unit :=
  let chunk := String.substring 0 1024 bytes in
  (if negb (bool_decide (chunk = "")) then emit (EStdout (Raw chunk))
   else ret tt) >>>
  if (String.length chunk =? 1024)%nat then
    match fuel with
    | O => ret tt
    | S fuel' => write_chunks fuel' (Str.drop 1024 bytes)
    end
  else ret tt.

Definition download_and_print (root remote_path : rpath) : M unit :=
  let remote_path := join_root root remote_path in
  (* Output to stdout *)
  let! e := FS.exists_ remote_path in
  if negb e then
    logging CRITICAL ("Can't get output file (doesn't exist): "
                      ++ Path.to_string remote_path) >>>
    sys_exit 1
  else
    let! c := FS.read remote_path in
    match c with
    | Raw bytes => write_chunks (String.length bytes) bytes
    | c => emit (EStdout c)
    end.

Definition download_to (root remote_path local_path : rpath) : M unit :=
  let remote_path := join_root root remote_path in
  (* Copy *)
  let! e := FS.exists_ remote_path in
  if negb e then
    logging CRITICAL ("Can't get output file (doesn't exist): "
                      ++ Path.to_string remote_path) >>>
    sys_exit 1
  else
    FS.copyfile remote_path local_path >>>
    FS.copymode remote_path local_path.

(** Modelled from the spec: one download specification handled by
    [FileDownloader] of [reprounzip.unpackers.common]: "[role:] → stream to
    stdout; [role:localfile] → copy to local file". *)
Definition download_spec (root : rpath)
    (all_output_files : list (string * string)) (filespec : string)
  : M unit :=
  match Str.split_once ":"%char filespec with
  | None =>
      logging CRITICAL ("Invalid file specification: " ++ filespec) >>>
      sys_exit 1
  | Some (output_name, local_path) =>
      match assoc_get output_name all_output_files with
      | None =>
          logging CRITICAL ("Invalid output file: " ++ output_name) >>>
          sys_exit 1
      | Some op =>
          let remote_path := Path.of_string op in
          if bool_decide (local_path = "") then
            download_and_print root remote_path
          else download_to root remote_path (Path.of_string local_path)
      end
  end.

(** Modelled from the spec: the specifications of one command, handled in
    the order given. *)
Definition download_batch (root : rpath)
    (all_output_files : list (string * string)) (files : list string)
  : M unit :=
  for_each files (download_spec root all_output_files).

(** Modelled from the spec: the run of [FileDownloader] of
    [reprounzip.unpackers.common]: "without arguments, lists output files",
    else every specification is handled in turn. *)
Definition LocalDownloader (target : rpath) (files : list string)
    (type_ : string) : M unit :=
  let! cfg := load_config_file (target // "config.yml") in
  if bool_decide (files = []) then
    emit (EPrint "Output files:") >>>
    for_each (runs cfg) (λ r,
      for_each (output_files r) (λ nf, emit (EPrint ("    " ++ nf.1))))
  else
    (* prepare_download *)
    let! root := FS.absolute (target // "root") in
    download_batch root (all_files output_files (runs cfg)) files.

(** Gets an output file from the directory. *)
Definition download_body (args : Args) : M unit :=
  let target := Path.of_string (target args) in
  let files := file args in
  read_dict (target // ".reprounzip") (Some (type_ args)) >>>
  LocalDownloader target files (type_ args).

Definition download : Args → M unit := target_must_exist download_body.

(** ** The commands of the two unpackers *)

Inductive command :=
| directory_setup_cmd
| directory_upload_cmd
| directory_run_cmd
| directory_download_cmd
| directory_destroy_cmd
| chroot_setup_create_cmd
| chroot_setup_mount_cmd
| chroot_setup_cmd
| chroot_upload_cmd
| chroot_run_cmd
| chroot_download_cmd
| chroot_destroy_unmount_cmd
| chroot_destroy_dir_cmd
| chroot_destroy_cmd.

Definition with_type (t : string) (a : Args) : Args :=
  Build_Args (pack a) (target a) (cmdline a) (run a) (x11 a) (x11_display a)
             (restore_owner a) (bind_magic_dirs a) t (file a).

(** [parser.set_defaults(func=..., type=...)] in [setup_directory] and
    [setup_chroot]. *)
Definition func (c : command) (args : Args) : M unit :=
  match c with
  | directory_setup_cmd => directory_create args
  | directory_upload_cmd => upload (with_type "directory" args)
  | directory_run_cmd => directory_run args
  | directory_download_cmd => download (with_type "directory" args)
  | directory_destroy_cmd => directory_destroy args
  | chroot_setup_create_cmd => chroot_create args
  | chroot_setup_mount_cmd => chroot_mount args
  | chroot_setup_cmd => chroot_setup args
  | chroot_upload_cmd => upload (with_type "chroot" args)
  | chroot_run_cmd => chroot_run args
  | chroot_download_cmd => download (with_type "chroot" args)
  | chroot_destroy_unmount_cmd => chroot_destroy_unmount args
  | chroot_destroy_dir_cmd => chroot_destroy_dir args
  | chroot_destroy_cmd => chroot_destroy args
  end.

(** The kind of target a command is for; setup makes its target. *)
Definition expects (c : command) : option string :=
  match c with
  | directory_setup_cmd | chroot_setup_create_cmd | chroot_setup_cmd => None
  | directory_upload_cmd | directory_run_cmd | directory_download_cmd
  | directory_destroy_cmd => Some "directory"
  | _ => Some "chroot"
  end.

(** ** Definitions the properties are stated with *)

(** Following the spec's words (4.9): "without elevated privilege,
    explicit-yes is a fatal configuration error; unset resolves to no ...;
    explicit-no resolves to no ....  With elevated privilege, unset resolves
    to yes; explicit-yes/-no resolve as given." *)
Definition policy (elevated : bool) (request : option bool) : outcome bool :=
  match elevated, request with
  | false, Some true => Raise (SystemExit 1)
  | false, _ => Ok false
  | true, None => Ok true
  | true, Some b => Ok b
  end.

(** An event without its wording: the level of a log line, the value of a
    usage record. *)
Definition unworded (e : event) : event :=
  match e with
  | ELog l _ => ELog l ""
  | EUsage _ v => EUsage "" v
  | e => e
  end.

(** A segment that [posixpath.normpath] keeps as it is. *)
Definition plain (c : string) : Prop := c ≠ "" ∧ c ≠ "." ∧ c ≠ "..".

(** Segments a relative path keeps: anything but the empty one and the dot. *)
Definition kept (c : string) : Prop := c ≠ "" ∧ c ≠ ".".

(** The computation changes neither the file tree nor the working
    directory (it may log, or run a command). *)
Definition keeps_tree {A} (m : M A) : Prop :=
  ∀ w, fs (snd (m w)) = fs w ∧ cwd (snd (m w)) = cwd w.

(** The record [chroot_unmount] leaves once the magic directories are
    unmounted. *)
Definition unmounted_record (dct : gmap string pyval) : gmap string pyval :=
  <["mounted" := VBool false]> dct ∪ {["unpacker" := VStr "chroot"]}.

(** The computation never returns: whatever the world, it raises. *)
Definition fails {A} (m : M A) : Prop := ∀ w, ∃ e, fst (m w) = Raise e.






(** ** More definitions the properties are stated with *)

(** The first thing a setup does with its pack: open it and find the member
    that holds the configuration. *)
Definition find_config (pack : rpath) : M TarInfo_t :=
  let! tar := Tarfile.open_ pack in
  Tarfile.getmember "METADATA/config.yml" tar.

(** The computation never changes nor removes a node that is there (it may
    add nodes), and leaves the working directory alone. *)
Definition keeps_present {A} (m : M A) : Prop :=
  ∀ w, cwd (snd (m w)) = cwd w
       ∧ ∀ k n, fs w !! k = Some n → fs (snd (m w)) !! k = Some n.

(** The record a completed setup leaves. *)
Definition fresh_record (kind : string) : gmap string pyval :=
  {["unpacker" := VStr kind]}.

(** The record [chroot_mount] leaves. *)
Definition mounted_record : gmap string pyval :=
  {["mounted" := VBool true]} ∪ {["unpacker" := VStr "chroot"]}.

(** The computation leaves the identity of the process alone. *)
Definition keeps_euid {A} (m : M A) : Prop :=
  ∀ w, euid (snd (m w)) = euid w.




(** The computation leaves the working directory alone and takes no node
    away (it may replace one). *)
Definition keeps_there {A} (m : M A) : Prop :=
  ∀ w, cwd (snd (m w)) = cwd w
       ∧ ∀ k, is_Some (fs w !! k) → is_Some (fs (snd (m w)) !! k).

(** Partial correctness: from a world of [P], a result [a] comes with a
    world of [Q a]. *)
Definition hoare {A} (P : world → Prop) (m : M A) (Q : A → world → Prop)
  : Prop :=
  ∀ w a w', P w → m w = (Ok a, w') → Q a w'.

(** The working directory is [c] and there is a node at each of [ks]. *)
Definition there (c : list string) (ks : list (list string)) (w : world)
  : Prop :=
  cwd w = c ∧ Forall (λ k, is_Some (fs w !! k)) ks.

(** * Properties *)

(** ** The privilege switches (C5, C6) *)

(** C5. The resolver [should_restore_owner]: not elevated and explicit-yes
    is fatal, with exit status 1 and a critical log line; not elevated and
    unset gives no, with a warning; not elevated and explicit-no gives no,
    with no log line; elevated and unset gives yes; elevated and
    explicit-yes/-no give what was asked.  Only the trace changes. *)
Theorem should_restore_owner_table (w : world) :
  if bool_decide (euid w = 0) then
    should_restore_owner None w
    = (Ok true,
       with_event (EUsage "restore_owner" (VBool true))
         (with_event
            (ELog INFO "Running as root, we will restore files' owner/group")
            w))
    ∧ should_restore_owner (Some true) w
      = (Ok true, with_event (EUsage "restore_owner" (VBool true)) w)
    ∧ should_restore_owner (Some false) w
      = (Ok false, with_event (EUsage "restore_owner" (VBool false)) w)
  else
    should_restore_owner (Some true) w
    = (Raise (SystemExit 1),
       with_event
         (ELog CRITICAL
            "Not running as root, cannot restore files' owner/group as requested")
         w)
    ∧ exit_status (fst (should_restore_owner (Some true) w)) = 1
    ∧ should_restore_owner None w
      = (Ok false,
         with_event (EUsage "restore_owner" (VBool false))
           (with_event
              (ELog WARNING
                 "Not running as root, won't restore files' owner/group")
              w))
    ∧ should_restore_owner (Some false) w
      = (Ok false, with_event (EUsage "restore_owner" (VBool false)) w).
Proof.
  unfold should_restore_owner, bind, get_world.
  destruct (bool_decide (euid w = 0)); simpl; repeat split.
Qed.

(** C6. The two switches are one decision: for every request and every
    process, [should_restore_owner] and [should_mount_magic_dirs] end the
    same way (the spec's policy), leave the same file tree, and emit the same
    events up to their wording. *)
Theorem switches_agree (param : option bool) (w : world) :
  fst (should_restore_owner param w) = policy (bool_decide (euid w = 0)) param
  ∧ fst (should_mount_magic_dirs param w)
    = policy (bool_decide (euid w = 0)) param
  ∧ map unworded (trace (snd (should_restore_owner param w)))
    = map unworded (trace (snd (should_mount_magic_dirs param w)))
  ∧ fs (snd (should_restore_owner param w))
    = fs (snd (should_mount_magic_dirs param w)).
Proof.
  unfold should_restore_owner, should_mount_magic_dirs, bind, get_world.
  destruct (bool_decide (euid w = 0)), param as [[|]|]; simpl;
    rewrite ?map_app; repeat split.
Qed.

(** ** Reading the record of a target *)

Lemma target_must_exist_dir (body : Args → M unit) (args : Args) (w : world)
    (st : stat) :
  fs w !! FS.locate w (Path.of_string (target args)) = Some (Dir st) →
  target_must_exist body args w = body args w.
Proof.
  intros H. cbv [target_must_exist bind FS.is_dir FS.lookup ret].
  by rewrite H.
Qed.

Lemma read_dict_wrong_kind (p : rpath) (kind k : string) (w : world)
    (dct : gmap string pyval) (st : stat) :
  fs w !! FS.locate w p = Some (File (Pickled dct) st) →
  dct !! "unpacker" = Some (VStr k) →
  k ≠ kind →
  read_dict p (Some kind) w
  = (Raise UsageError,
     with_event
       (ELog CRITICAL ("Wrong unpacker used: " ++ k ++ " != " ++ kind)) w).
Proof.
  intros Hf Hu Hk. cbv [read_dict bind FS.read].
  rewrite Hf, Hu. simpl. by rewrite bool_decide_false.
Qed.

Lemma read_dict_right_kind (p : rpath) (kind : string) (w : world)
    (dct : gmap string pyval) (st : stat) :
  fs w !! FS.locate w p = Some (File (Pickled dct) st) →
  dct !! "unpacker" = Some (VStr kind) →
  read_dict p (Some kind) w = (Ok dct, w).
Proof.
  intros Hf Hu. cbv [read_dict bind FS.read].
  rewrite Hf, Hu. simpl. by rewrite bool_decide_true.
Qed.

(** C3. A command issued against an existing target whose record names
    another unpacker than the one the command is for raises [UsageError]
    before anything else: the world it leaves is the world it found plus one
    critical log line (the file tree is untouched), and the process ends with
    a non-zero status. *)
Theorem wrong_kind_fails_before_mutation (c : command) (args : Args)
    (w : world) (kind k : string) (dct : gmap string pyval) (st st' : stat) :
  expects c = Some kind →
  fs w !! FS.locate w (Path.of_string (target args)) = Some (Dir st) →
  fs w !! FS.locate w (Path.of_string (target args) // ".reprounzip")
  = Some (File (Pickled dct) st') →
  dct !! "unpacker" = Some (VStr k) →
  k ≠ kind →
  func c args w
  = (Raise UsageError,
     with_event
       (ELog CRITICAL ("Wrong unpacker used: " ++ k ++ " != " ++ kind)) w)
  ∧ fs (snd (func c args w)) = fs w
  ∧ exit_status (fst (func c args w)) ≠ 0.
Proof.
  intros Hc Hd Hf Hu Hk.
  assert (func c args w
          = (Raise UsageError,
             with_event
               (ELog CRITICAL ("Wrong unpacker used: " ++ k ++ " != " ++ kind))
               w)) as ->.
  { destruct c; simpl in Hc; try discriminate; injection Hc as <-; simpl;
      unfold directory_run, directory_destroy, chroot_mount, chroot_run,
        chroot_destroy_unmount, chroot_destroy_dir, chroot_destroy,
        upload, download;
      erewrite target_must_exist_dir by exact Hd;
      unfold directory_run_body, directory_destroy_body, chroot_mount_body,
        chroot_run_body, chroot_destroy_unmount_body, chroot_destroy_dir_body,
        chroot_destroy_body, upload_body, download_body, chroot_unmount;
      unfold bind at 1; simpl target; simpl type_;
      try unfold bind at 1;
      by erewrite read_dict_wrong_kind by eauto. }
  simpl. split; [done|]. split; [done|]. discriminate.
Qed.

(** ** Normal forms of paths *)

Lemma norm_app (abs : bool) (xs ys acc : list string) :
  Path.norm abs acc (xs ++ ys) = Path.norm abs (rev (Path.norm abs acc xs)) ys.
Proof.
  revert acc. induction xs as [|x xs IH]; intros acc; simpl.
  - by rewrite rev_involutive.
  - repeat case_match; apply IH.
Qed.

Lemma norm_plain_out (cs acc : list string) :
  Forall plain acc → Forall plain (Path.norm true acc cs).
Proof.
  revert acc. induction cs as [|c cs IH]; intros acc Hacc; simpl.
  - by apply Forall_rev.
  - destruct (bool_decide (c = "")) eqn:E1; simpl; [by apply IH|].
    destruct (bool_decide (c = ".")) eqn:E2; simpl; [by apply IH|].
    destruct (bool_decide (c = "..")) eqn:E3.
    + destruct acc as [|a acc']; [by apply IH|].
      inversion Hacc as [|? ? Ha Hacc']; subst.
      destruct (bool_decide (a = "..")) eqn:E4; [|by apply IH].
      apply bool_decide_eq_true in E4. by destruct Ha as (_ & _ & ?).
    + apply IH. constructor; [|done].
      apply bool_decide_eq_false in E1, E2, E3. done.
Qed.

Lemma norm_plain_id (abs : bool) (l acc : list string) :
  Forall plain l → Path.norm abs acc l = (rev acc ++ l)%list.
Proof.
  revert acc. induction l as [|c l IH]; intros acc Hl; simpl.
  - by rewrite app_nil_r.
  - inversion Hl as [|? ? (H1 & H2 & H3) Hl']; subst.
    rewrite !bool_decide_false by done. simpl.
    rewrite IH by done. simpl. by rewrite <- app_assoc.
Qed.

(** Normalising a prefix first changes nothing. *)
Lemma norm_norm_prefix (xs ys : list string) :
  Path.norm true [] (Path.norm true [] xs ++ ys)
  = Path.norm true [] (xs ++ ys).
Proof.
  rewrite (norm_app true xs), (norm_app true (Path.norm true [] xs)).
  rewrite (norm_plain_id true (Path.norm true [] xs) []); [done|].
  by apply norm_plain_out.
Qed.

Lemma norm_relative_suffix (zs R T : list string) :
  Forall kept R →
  Path.norm true T (Path.norm false R zs) = Path.norm true T (rev R ++ zs).
Proof.
  revert R. induction zs as [|z zs IH]; intros R HR; simpl.
  - by rewrite app_nil_r.
  - destruct (bool_decide (z = "")) eqn:E1; simpl.
    { rewrite IH by done. rewrite !(norm_app true (rev R)). simpl.
      by rewrite E1. }
    destruct (bool_decide (z = ".")) eqn:E2; simpl.
    { rewrite IH by done. rewrite !(norm_app true (rev R)). simpl.
      by rewrite E1, E2. }
    apply bool_decide_eq_false in E1, E2.
    destruct (bool_decide (z = "..")) eqn:E3.
    + apply bool_decide_eq_true in E3. subst z.
      destruct R as [|a R'].
      * rewrite IH by (by repeat constructor). done.
      * destruct (bool_decide (a = "..")) eqn:E4.
        -- rewrite IH by (by constructor). simpl.
           by rewrite <- !app_assoc.
        -- inversion HR as [|? ? [Ha1 Ha2] HR']; subst.
           rewrite IH by done. simpl. rewrite <- app_assoc. simpl.
           rewrite !(norm_app true (rev R')). simpl.
           rewrite !bool_decide_false by done. simpl.
           by rewrite E4.
    + rewrite IH by (by constructor). simpl. by rewrite <- app_assoc.
Qed.

(** A child of a resolved directory is the child of the directory: the
    record [chroot_unmount] writes is the record it read. *)
Lemma locate_resolved_child (w : world) (p : rpath) (s : string) :
  FS.locate w (RPath true (FS.locate w p) // s) = FS.locate w (p // s).
Proof.
  unfold Path.join, FS.locate.
  destruct (is_absolute (Path.of_string s)) eqn:Es; [done|].
  destruct (is_absolute p) eqn:Ep; simpl; rewrite ?Ep; [done|].
  rewrite norm_norm_prefix, <- app_assoc.
  rewrite (norm_app true (cwd w) (segs p ++ _)).
  rewrite (norm_app true (cwd w) (Path.norm false [] _)).
  by rewrite (norm_relative_suffix _ []) by constructor.
Qed.

(** ** Computations that leave the file tree alone *)

Lemma keeps_tree_ret {A} (a : A) : keeps_tree (ret a).
Proof. done. Qed.

Lemma keeps_tree_raise {A} (e : exn) : keeps_tree (@raise A e).
Proof. done. Qed.

Lemma keeps_tree_emit (e : event) : keeps_tree (emit e).
Proof. done. Qed.

Lemma keeps_tree_bind {A B} (m : M A) (k : A → M B) :
  keeps_tree m → (∀ a, keeps_tree (k a)) → keeps_tree (bind m k).
Proof.
  intros Hm Hk w. unfold bind. specialize (Hm w).
  destruct (m w) as [[a|e] w1]; simpl in *; [|done].
  destruct (Hk a w1) as [-> ->]. done.
Qed.

Lemma keeps_tree_call (cmd : string) : keeps_tree (call cmd).
Proof. done. Qed.

Lemma keeps_tree_check_call (cmd : string) : keeps_tree (check_call cmd).
Proof.
  apply keeps_tree_bind; [apply keeps_tree_call|].
  intros r. by case_bool_decide.
Qed.

Lemma keeps_tree_exists (p : rpath) : keeps_tree (FS.exists_ p).
Proof. done. Qed.

Lemma keeps_tree_for_each {A} (l : list A) (body : A → M unit) :
  (∀ x, keeps_tree (body x)) → keeps_tree (for_each l body).
Proof.
  intros Hb. induction l as [|x l IH]; simpl; [done|].
  by apply keeps_tree_bind.
Qed.

Lemma locate_same_cwd (w w' : world) (p : rpath) :
  cwd w' = cwd w → FS.locate w' p = FS.locate w p.
Proof. intros H. unfold FS.locate. by rewrite H. Qed.

(** ** Unmounting (C7, C4) *)

Lemma read_dict_inv (p : rpath) (t : string) (w w' : world)
    (dct : gmap string pyval) :
  read_dict p (Some t) w = (Ok dct, w') →
  w' = w ∧ ∃ st, fs w !! FS.locate w p = Some (File (Pickled dct) st)
                 ∧ dct !! "unpacker" = Some (VStr t).
Proof.
  cbv [read_dict bind FS.read].
  destruct (fs w !! FS.locate w p) as [[|c st|]|]; try done.
  destruct c; try done.
  destruct (d !! "unpacker") as [u|] eqn:Eu; [|done].
  destruct (differs u t) eqn:Ed; [done|].
  intros [= -> ->]. split; [done|]. exists st. split; [done|].
  destruct u; try done. simpl in Ed.
  apply negb_false_iff, bool_decide_eq_true in Ed. by subst.
Qed.

Lemma chroot_unmount_not_mounted (target : rpath) (w : world)
    (dct : gmap string pyval) (st : stat) :
  fs w !! FS.locate w (target // ".reprounzip")
  = Some (File (Pickled dct) st) →
  dct !! "unpacker" = Some (VStr "chroot") →
  truthy (get_flag dct "mounted") = false →
  chroot_unmount target w = (Ok false, w).
Proof.
  intros Hf Hu Hm. unfold chroot_unmount. unfold bind at 1.
  erewrite read_dict_right_kind by eauto. by rewrite Hm.
Qed.

Lemma chroot_unmount_mounted (target : rpath) (w : world)
    (dct : gmap string pyval) (st : stat) :
  fs w !! FS.locate w (target // ".reprounzip")
  = Some (File (Pickled dct) st) →
  dct !! "unpacker" = Some (VStr "chroot") →
  truthy (get_flag dct "mounted") = true →
  ∃ (o : outcome unit) (w1 : world),
    fs w1 = fs w ∧ cwd w1 = cwd w ∧
    chroot_unmount target w
    = match o with
      | Ok _ =>
          (Ok true,
           with_fs (insert (FS.locate w (target // ".reprounzip"))
                           (File (Pickled (unmounted_record dct)) st)) w1)
      | Raise e => (Raise e, w1)
      end.
Proof.
  intros Hf Hu Hm. unfold chroot_unmount. unfold bind at 1.
  erewrite read_dict_right_kind by eauto. rewrite Hm. cbn [negb].
  unfold bind at 1. unfold FS.resolve, FS.absolute. cbv beta.
  unfold bind at 1.
  match goal with |- context [for_each ?l ?b w] =>
    pose proof (keeps_tree_for_each l b) as Hk;
    destruct (for_each l b w) as [o w1] eqn:E
  end.
  assert (fs w1 = fs w ∧ cwd w1 = cwd w) as [Hfs Hcwd].
  { lapply Hk.
    - intros Hk'. specialize (Hk' w). by rewrite E in Hk'.
    - intros m. apply keeps_tree_bind; [apply keeps_tree_exists|].
      intros [|]; [|apply keeps_tree_ret].
      apply keeps_tree_bind; [apply keeps_tree_emit|].
      intros _. apply keeps_tree_check_call. }
  exists o, w1. split; [done|]. split; [done|].
  destruct o as [[]|e]; [|done].
  unfold bind, write_dict, FS.write.
  rewrite (locate_same_cwd w w1) by done.
  rewrite locate_resolved_child, Hfs, Hf. done.
Qed.

Lemma unmounted_record_unpacker (dct : gmap string pyval) :
  dct !! "unpacker" = Some (VStr "chroot") →
  unmounted_record dct !! "unpacker" = Some (VStr "chroot").
Proof.
  intros H. unfold unmounted_record.
  apply lookup_union_Some_l. by rewrite lookup_insert_ne.
Qed.

Lemma unmounted_record_flag (dct : gmap string pyval) :
  truthy (get_flag (unmounted_record dct) "mounted") = false.
Proof.
  unfold get_flag, unmounted_record.
  erewrite lookup_union_Some_l; [|apply lookup_insert_eq]. done.
Qed.

(** C7. On a target whose record says the magic directories are not
    mounted, [chroot_unmount] returns [False] and leaves the world exactly as
    it found it: no command is run, nothing is written, nothing is raised.
    And whenever a call of [chroot_unmount] returns, the call that follows
    it is that no-op. *)
Theorem chroot_unmount_idempotent (target : rpath) (w : world)
    (dct : gmap string pyval) (st : stat) :
  fs w !! FS.locate w (target // ".reprounzip")
  = Some (File (Pickled dct) st) →
  dct !! "unpacker" = Some (VStr "chroot") →
  (truthy (get_flag dct "mounted") = false →
   chroot_unmount target w = (Ok false, w))
  ∧ (∀ b w1, chroot_unmount target w = (Ok b, w1) →
             chroot_unmount target w1 = (Ok false, w1)).
Proof.
  intros Hf Hu. split.
  - intros Hm. by eapply chroot_unmount_not_mounted.
  - intros b w1 H1.
    destruct (truthy (get_flag dct "mounted")) eqn:Hm.
    + destruct (chroot_unmount_mounted target w dct st Hf Hu Hm)
        as (o & w' & Hfs & Hcwd & Heq).
      rewrite Heq in H1. destruct o as [[]|e]; [|done].
      injection H1 as <- <-.
      eapply chroot_unmount_not_mounted.
      * rewrite (locate_same_cwd w) by done. simpl.
        apply lookup_insert_eq.
      * by apply unmounted_record_unpacker.
      * apply unmounted_record_flag.
    + rewrite (chroot_unmount_not_mounted target w dct st Hf Hu Hm) in H1.
      injection H1 as <- <-.
      by eapply chroot_unmount_not_mounted.
Qed.

(** The command [destroy/unmount] reports that signal as a failure of its
    own: the function returns [False] without raising, the command then logs
    and exits with status 1. *)
Lemma destroy_unmount_reports_not_mounted (args : Args) (w : world)
    (dct : gmap string pyval) (st st' : stat) :
  fs w !! FS.locate w (Path.of_string (target args)) = Some (Dir st) →
  fs w !! FS.locate w (Path.of_string (target args) // ".reprounzip")
  = Some (File (Pickled dct) st') →
  dct !! "unpacker" = Some (VStr "chroot") →
  truthy (get_flag dct "mounted") = false →
  chroot_destroy_unmount args w
  = (Raise (SystemExit 1),
     with_event (ELog CRITICAL "Magic directories were not mounted") w).
Proof.
  intros Hd Hf Hu Hm. unfold chroot_destroy_unmount.
  erewrite target_must_exist_dir by exact Hd.
  unfold chroot_destroy_unmount_body. unfold bind at 1.
  by erewrite chroot_unmount_not_mounted by eauto.
Qed.


(** ** The names of an archive are checked before it is unpacked (C1) *)

Lemma fails_raise {A} (e : exn) : fails (@raise A e).
Proof. intros w. by exists e. Qed.







Lemma keeps_tree_should_restore_owner (param : option bool) :
  keeps_tree (should_restore_owner param).
Proof.
  intros w. unfold should_restore_owner, bind, get_world.
  by destruct (bool_decide (euid w = 0)), param as [[|]|].
Qed.



(** ** Symbolic links of the directory setup (C2) *)

Lemma of_string_absolute_plain (s : string) :
  is_absolute (Path.of_string s) = true →
  Forall plain (segs (Path.of_string s)).
Proof.
  unfold Path.of_string. simpl. intros ->. by apply norm_plain_out.
Qed.




(** ** The arguments of a run (C8) *)




(** ** A missing file ends the command (C9) *)




(** ** The record after an upload (C10) *)













(** * More properties of the unpackers *)

(** ** The record of a target, written and read back *)

Lemma write_dict_inv (filename : rpath) (dct : gmap string pyval)
    (t : string) (w w' : world) (u : unit) :
  write_dict filename dct t w = (Ok u, w') →
  ∃ st, w' = with_fs (insert (FS.locate w filename)
                        (File (Pickled (dct ∪ {["unpacker" := VStr t]})) st))
                     w.
Proof.
  unfold write_dict, FS.write.
  destruct (fs w !! FS.locate w filename) as [[|c st|]|].
  - done.
  - intros [= _ <-]. by eexists.
  - done.
  - destruct (fs w !! removelast _) as [[| |]|]; try done.
    intros [= _ <-]. by eexists.
Qed.

(** X1. What [write_dict] has written, [read_dict] reads back: the
    dictionary with the key ['unpacker'] added.  The kind given to
    [write_dict] is only a default: an ['unpacker'] entry of the dictionary
    itself wins over it, and a later [read_dict] for the kind that was given
    then fails with the Usage error. *)
Theorem write_dict_read_dict (filename : rpath) (dct : gmap string pyval)
    (t : string) (w w' : world) :
  write_dict filename dct t w = (Ok tt, w') →
  read_dict filename None w' = (Ok (dct ∪ {["unpacker" := VStr t]}), w')
  ∧ read_dict filename (Some t) w'
    = match dct !! "unpacker" with
      | None => (Ok (dct ∪ {["unpacker" := VStr t]}), w')
      | Some u =>
          if differs u t then
            (Raise UsageError,
             with_event
               (ELog CRITICAL
                  ("Wrong unpacker used: " ++ pyval_str u ++ " != " ++ t)) w')
          else (Ok (dct ∪ {["unpacker" := VStr t]}), w')
      end.
Proof.
  intros H. destruct (write_dict_inv _ _ _ _ _ _ H) as [st ->].
  cbv [read_dict bind FS.read]. cbn [fs with_fs].
  change (FS.locate (with_fs ?f w) filename) with (FS.locate w filename).
  rewrite lookup_insert_eq. split; [done|].
  destruct (dct !! "unpacker") as [u|] eqn:E.
  - erewrite lookup_union_Some_l by exact E. by destruct (differs u t).
  - rewrite lookup_union_r by exact E. rewrite lookup_singleton_eq.
    cbn. by rewrite bool_decide_true.
Qed.

(** X2. [read_dict] only hands back what is on disk and of the kind asked
    for: when it returns, the world is the one it found, the file holds the
    dictionary returned, and its ['unpacker'] entry is the kind asked for. *)
Theorem read_dict_sound (p : rpath) (t : string) (w w' : world)
    (dct : gmap string pyval) :
  read_dict p (Some t) w = (Ok dct, w') →
  w' = w
  ∧ (∃ st, fs w !! FS.locate w p = Some (File (Pickled dct) st))
  ∧ dct !! "unpacker" = Some (VStr t).
Proof.
  intros H. destruct (read_dict_inv _ _ _ _ _ H) as (-> & st & Hf & Hu).
  split; [done|]. split; [by exists st|done].
Qed.

(** ** The command [destroy/unmount] *)

(** X3. [destroy/unmount] on a chroot target whose magic directories are
    not mounted is an error of the command: one critical log line, exit
    status 1, and the file tree as it was. *)
Theorem destroy_unmount_needs_mounted (args : Args) (w : world)
    (dct : gmap string pyval) (st st' : stat) :
  fs w !! FS.locate w (Path.of_string (target args)) = Some (Dir st) →
  fs w !! FS.locate w (Path.of_string (target args) // ".reprounzip")
  = Some (File (Pickled dct) st') →
  dct !! "unpacker" = Some (VStr "chroot") →
  truthy (get_flag dct "mounted") = false →
  chroot_destroy_unmount args w
  = (Raise (SystemExit 1),
     with_event (ELog CRITICAL "Magic directories were not mounted") w)
  ∧ exit_status (fst (chroot_destroy_unmount args w)) = 1
  ∧ fs (snd (chroot_destroy_unmount args w)) = fs w.
Proof.
  intros Hd Hf Hu Hm.
  by rewrite (destroy_unmount_reports_not_mounted args w dct st st').
Qed.

(** ** What a setup refuses *)


Lemma find_config_keeps_world (p : rpath) (w w1 : world)
    (o : outcome TarInfo_t) :
  find_config p w = (o, w1) → w1 = w.
Proof.
  cbv [find_config bind Tarfile.open_ FS.read Tarfile.getmember].
  destruct (fs w !! FS.locate w p) as [[|c st|]|]; try by intros [= _ <-].
  destruct c; try by intros [= _ <-].
  cbv [ret]. by destruct (List.find _ _); intros [= _ <-].
Qed.

(** X5. A setup whose pack cannot be opened, or holds no member
    [METADATA/config.yml], fails with the error of that step ([IOError],
    [ReadError], [KeyError]) before it writes anything: the target is not
    made, and the file tree is as it was. *)
Theorem setup_without_config_writes_nothing (args : Args) (w w1 : world)
    (p : string) (e : exn) :
  pack args = [p] →
  fs w !! FS.locate w (Path.of_string (target args)) = None →
  posix w = true →
  find_config (Path.of_string p) w = (Raise e, w1) →
  directory_create args w = (Raise e, with_event (ESignal "pre_setup") w)
  ∧ (∃ e', fst (chroot_create args w) = Raise e')
  ∧ fs (snd (chroot_create args w)) = fs w.
Proof.
  intros Hp Ht Hx Hc.
  assert (∀ w2, fs w2 = fs w → cwd w2 = cwd w →
                find_config (Path.of_string p) w2 = (Raise e, w2)) as Hc'.
  { intros w2 Hfs Hcwd. pose proof (find_config_keeps_world _ _ _ _ Hc) as ->.
    revert Hc. cbv [find_config bind Tarfile.open_ FS.read ret raise].
    rewrite (locate_same_cwd w w2), Hfs by done.
    destruct (fs w !! FS.locate w (Path.of_string p)) as [[|c st|]|];
      cbv beta iota zeta;
      [by intros [= <-]| |by intros [= <-]|by intros [= <-]].
    destruct c; cbv beta iota zeta;
      [by intros [= <-]|by intros [= <-]|by intros [= <-]|].
    cbv [ret raise Tarfile.getmember].
    by destruct (List.find _ _); cbv beta iota zeta; intros [= <-]. }
  split.
  - unfold directory_create. rewrite Hp. cbn [hd].
    rewrite bool_decide_false by done.
    unfold bind at 1. unfold FS.exists_ at 1, FS.lookup, bind at 1, ret at 1.
    rewrite Ht. rewrite bool_decide_false by (by intros [? ?]).
    unfold bind at 1, get_world at 1. rewrite Hx. cbn [negb].
    unfold bind at 1, signal at 1, emit at 1.
    specialize (Hc' (with_event (ESignal "pre_setup") w) eq_refl eq_refl).
    revert Hc'. unfold find_config. unfold bind at 1 2.
    destruct (Tarfile.open_ _ _) as [[tar|e1] w2]; [|by intros [= -> ->]].
    unfold bind at 1.
    destruct (Tarfile.getmember _ _ _) as [[m|e2] w3]; [done|].
    by intros [= -> ->].
  - assert (∃ e' w', chroot_create args w = (Raise e', w') ∧ fs w' = fs w)
      as (e' & w' & -> & Hw'); [|split; [by eexists|done]].
    unfold chroot_create. rewrite Hp. cbn [hd].
    rewrite bool_decide_false by done.
    unfold bind at 1. unfold FS.exists_ at 1, FS.lookup, bind at 1, ret at 1.
    rewrite Ht. rewrite bool_decide_false by (by intros [? ?]).
    unfold bind at 1, get_world at 1. rewrite Hx. cbn [negb].
    unfold bind at 1, signal at 1, emit at 1.
    unfold bind at 1.
    pose proof (keeps_tree_should_restore_owner (restore_owner args)
                  (with_event (ESignal "pre_setup") w)) as [Hfs Hcwd].
    destruct (should_restore_owner _ _) as [[ro|e0] w2]; [|by eexists _, _].
    cbn [snd] in Hfs, Hcwd.
    specialize (Hc' w2 Hfs Hcwd).
    revert Hc'. unfold find_config. unfold bind at 1 2.
    destruct (Tarfile.open_ _ _) as [[tar|e1] w3];
      [|intros [= -> ->]; by eexists _, _].
    unfold bind at 1.
    destruct (Tarfile.getmember _ _ _) as [[m|e2] w4]; [done|].
    intros [= -> ->]. by eexists _, _.
Qed.

(** ** What a completed setup leaves *)

Lemma bind_Ok_inv {A B} (m : M A) (k : A → M B) (w w' : world) (b : B) :
  bind m k w = (Ok b, w') →
  ∃ a w1, m w = (Ok a, w1) ∧ k a w1 = (Ok b, w').
Proof.
  unfold bind. destruct (m w) as [[a|e] w1]; [|done]. intros H. by exists a, w1.
Qed.

(** Follows a computation that returned down to its last step. *)
Ltac to_the_end H :=
  repeat
    (cbv zeta in H;
     match type of H with
     | (if ?b then _ else _) _ = _ => destruct b
     | bind _ _ _ = (Ok _, _) =>
         let H1 := fresh "Hstep" in
         apply bind_Ok_inv in H as (? & ? & H1 & H)
     | sys_exit _ _ = _ => discriminate H
     | raise _ _ = _ => discriminate H
     end).

(** X6. A setup that completes leaves a record that names its unpacker
    and nothing else (no mounted flag, no input files): [read_dict] for that
    kind returns it, in the world the setup leaves. *)
Theorem completed_setup_leaves_its_record (args : Args) (w w' : world)
    (kind : string) :
  (kind = "directory" ∧ directory_create args w = (Ok tt, w'))
  ∨ (kind = "chroot" ∧ chroot_create args w = (Ok tt, w')) →
  read_dict (Path.of_string (target args) // ".reprounzip") (Some kind) w'
  = (Ok (fresh_record kind), w').
Proof.
  intros [[-> H]|[-> H]].
  - unfold directory_create in H. to_the_end H.
    match goal with Hw : write_dict _ _ _ _ = _ |- _ =>
      apply write_dict_inv in Hw as [st ->] end.
    injection H as <-.
    eapply read_dict_right_kind.
    + cbn [fs with_event with_fs].
      change (FS.locate (with_event ?e (with_fs ?f ?x)) ?p)
        with (FS.locate x p).
      unfold fresh_record. rewrite (left_id_L ∅ (∪)). apply lookup_insert_eq.
    + apply lookup_singleton_eq.
  - unfold chroot_create in H. to_the_end H.
    match goal with Hw : write_dict _ _ _ _ = _ |- _ =>
      apply write_dict_inv in Hw as [st ->] end.
    injection H as <-.
    eapply read_dict_right_kind.
    + cbn [fs with_event with_fs].
      change (FS.locate (with_event ?e (with_fs ?f ?x)) ?p)
        with (FS.locate x p).
      unfold fresh_record. rewrite (left_id_L ∅ (∪)). apply lookup_insert_eq.
    + apply lookup_singleton_eq.
Qed.

(** ** Destroying a directory target *)

Lemma without_tree_lookup (l p : list string) (m : gmap (list string) node) :
  FS.without_tree l m !! p
  = if bool_decide (l `prefix_of` p) then None else m !! p.
Proof.
  unfold FS.without_tree. case_bool_decide as Hp.
  - apply map_lookup_filter_None. right. intros x _ Hn. by apply Hn.
  - destruct (m !! p) as [x|] eqn:E.
    + by apply map_lookup_filter_Some.
    + apply map_lookup_filter_None. by left.
Qed.

(** X7. [directory_destroy] on a directory target returns, and removes
    the target and everything below it and nothing else: every other path
    holds what it held.  It tells [pre_destroy] before and [post_destroy]
    after. *)
Theorem directory_destroy_removes_the_tree (args : Args) (w : world)
    (dct : gmap string pyval) (st st' : stat) :
  fs w !! FS.locate w (Path.of_string (target args)) = Some (Dir st) →
  fs w !! FS.locate w (Path.of_string (target args) // ".reprounzip")
  = Some (File (Pickled dct) st') →
  dct !! "unpacker" = Some (VStr "directory") →
  fst (directory_destroy args w) = Ok tt
  ∧ (∀ p, fs (snd (directory_destroy args w)) !! p
          = if bool_decide
                 (FS.locate w (Path.of_string (target args)) `prefix_of` p)
            then None else fs w !! p)
  ∧ trace (snd (directory_destroy args w))
    = (trace w
       ++ [ELog INFO ("Removing directory "
                      ++ Path.to_string (Path.of_string (target args))
                      ++ "...");
           ESignal "pre_destroy"; ESignal "post_destroy"])%list.
Proof.
  intros Hd Hf Hu.
  assert (directory_destroy args w
          = (Ok tt,
             with_event (ESignal "post_destroy")
               (with_fs (FS.without_tree
                           (FS.locate w (Path.of_string (target args))))
                  (with_event (ESignal "pre_destroy")
                     (with_event
                        (ELog INFO
                           ("Removing directory "
                            ++ Path.to_string (Path.of_string (target args))
                            ++ "...")) w))))) as ->.
  { unfold directory_destroy. erewrite target_must_exist_dir by exact Hd.
    unfold directory_destroy_body. unfold bind at 1.
    by erewrite read_dict_right_kind by eauto. }
  split; [done|]. split.
  - intros p. cbn [snd fs with_event with_fs]. apply without_tree_lookup.
  - cbn [snd trace with_event with_fs]. by rewrite <- !app_assoc.
Qed.

(** ** Mounting the magic directories *)

Lemma keeps_present_ret {A} (a : A) : keeps_present (ret a).
Proof. done. Qed.

Lemma keeps_present_emit (e : event) : keeps_present (emit e).
Proof. done. Qed.

Lemma keeps_present_bind {A B} (m : M A) (k : A → M B) :
  keeps_present m → (∀ a, keeps_present (k a)) → keeps_present (bind m k).
Proof.
  intros Hm Hk w. unfold bind. destruct (Hm w) as [Hc Hn].
  destruct (m w) as [[a|e] w1]; cbn [snd] in *; [|done].
  destruct (Hk a w1) as [Hc' Hn']. split; [congruence|].
  intros k0 n H. by apply Hn', Hn.
Qed.

Lemma keeps_present_for_each {A} (l : list A) (body : A → M unit) :
  (∀ x, keeps_present (body x)) → keeps_present (for_each l body).
Proof.
  intros Hb. induction l as [|x l IH]; simpl; [done|].
  by apply keeps_present_bind.
Qed.

Lemma keeps_present_check_call (cmd : string) :
  keeps_present (check_call cmd).
Proof.
  apply keeps_present_bind; [done|]. intros r. by case_bool_decide.
Qed.

Lemma makedirs_keeps_present (w : world) (ds : list (list string))
    (m : gmap (list string) node) (k : list string) (n : node) :
  m !! k = Some n →
  foldl (λ m d, match m !! d with
                | Some _ => m
                | None => <[d := FS.new_dir w]> m
                end) m ds !! k = Some n.
Proof.
  revert m. induction ds as [|d ds IH]; intros m Hk; simpl; [done|].
  apply IH. destruct (m !! d) eqn:E; [done|].
  rewrite lookup_insert_ne; [done|]. intros ->. congruence.
Qed.

Lemma keeps_present_mkdir (parents : bool) (p : rpath) :
  keeps_present (FS.mkdir parents p).
Proof.
  intros w. unfold FS.mkdir. cbv zeta.
  destruct (fs w !! FS.locate w p) eqn:E; [done|].
  destruct parents.
  - split; [done|]. intros k n Hk. by apply makedirs_keeps_present.
  - destruct (fs w !! removelast _) as [[| |]|]; try done.
    split; [done|]. intros k n Hk. cbn [snd fs with_fs].
    rewrite lookup_insert_ne; [done|]. intros Heq. rewrite Heq in E.
    congruence.
Qed.

(** X8. [chroot_mount] on a chroot target.  When it returns, the record
    holds the unpacker kind and [mounted = True] and nothing else: what the
    record held before (the input files an upload recorded) is gone; and
    [destroy/dir] then refuses the target.  When one of the mount commands
    fails, the record is left as it was, whatever was mounted before the
    failure.  No node that was there is changed, but for the record. *)
Theorem chroot_mount_record (args : Args) (w : world)
    (dct : gmap string pyval) (st st' : stat) :
  fs w !! FS.locate w (Path.of_string (target args)) = Some (Dir st) →
  fs w !! FS.locate w (Path.of_string (target args) // ".reprounzip")
  = Some (File (Pickled dct) st') →
  dct !! "unpacker" = Some (VStr "chroot") →
  match chroot_mount args w with
  | (Ok _, w') =>
      fs w' !! FS.locate w (Path.of_string (target args) // ".reprounzip")
      = Some (File (Pickled mounted_record) st')
      ∧ chroot_destroy_dir args w'
        = (Raise (SystemExit 1),
           with_event
             (ELog CRITICAL "Magic directories might still be mounted") w')
  | (Raise e, w') =>
      fs w' !! FS.locate w (Path.of_string (target args) // ".reprounzip")
      = Some (File (Pickled dct) st')
  end
  ∧ ∀ k n,
      k ≠ FS.locate w (Path.of_string (target args) // ".reprounzip") →
      fs w !! k = Some n → fs (snd (chroot_mount args w)) !! k = Some n.
Proof.
  intros Hd Hf Hu.
  destruct (chroot_mount args w) as [o w'] eqn:E. cbn [snd].
  revert E. unfold chroot_mount. erewrite target_must_exist_dir by exact Hd.
  unfold chroot_mount_body. unfold bind at 1.
  erewrite read_dict_right_kind by eauto.
  unfold bind at 1.
  match goal with |- context [for_each ?l ?b w] =>
    assert (keeps_present (for_each l b)) as Hk;
    [|destruct (Hk w) as [Hcwd Hkeep];
      destruct (for_each l b w) as [[[]|e] w1]]
  end.
  { apply keeps_present_for_each. intros m.
    apply keeps_present_bind; [apply keeps_present_mkdir|]. intros ?.
    apply keeps_present_bind; [apply keeps_present_emit|]. intros ?.
    apply keeps_present_check_call. }
  - cbn [snd] in Hcwd, Hkeep.
    unfold bind, write_dict, FS.write.
    rewrite (locate_same_cwd w w1) by done.
    rewrite (Hkeep _ _ Hf).
    cbn [logging emit]. intros [= <- <-].
    cbn [fs with_event with_fs].
    split; [split|].
    + apply lookup_insert_eq.
    + unfold chroot_destroy_dir. erewrite target_must_exist_dir.
      2: { cbn [fs with_event with_fs].
           change (FS.locate (with_event ?e (with_fs ?f w1)) ?p)
             with (FS.locate w1 p).
           rewrite (locate_same_cwd w w1) by done.
           rewrite lookup_insert_ne; [by apply Hkeep|].
           intros Heq. rewrite <- Heq in Hd. congruence. }
      unfold chroot_destroy_dir_body. unfold bind at 1.
      erewrite (read_dict_right_kind _ _ _ mounted_record st').
      * done.
      * cbn [fs with_event with_fs].
        change (FS.locate (with_event ?e (with_fs ?f w1)) ?p)
          with (FS.locate w1 p).
        rewrite (locate_same_cwd w w1) by done. apply lookup_insert_eq.
      * unfold mounted_record. apply lookup_union_Some_r;
          [|apply lookup_singleton_eq].
        apply map_disjoint_singleton_l. apply lookup_singleton_ne. done.
    + intros k n Hne Hn. rewrite lookup_insert_ne by done. by apply Hkeep.
  - cbn [snd] in Hcwd, Hkeep. intros [= <- <-]. split; [by apply Hkeep|].
    intros k n _ Hn. by apply Hkeep.
Qed.

(** ** Setup of a chroot, with or without the magic directories *)

Lemma keeps_euid_bind {A B} (m : M A) (k : A → M B) :
  keeps_euid m → (∀ a, keeps_euid (k a)) → keeps_euid (bind m k).
Proof.
  intros Hm Hk w. unfold bind. specialize (Hm w).
  destruct (m w) as [[a|e] w1]; simpl in *; [|done].
  by rewrite Hk.
Qed.

Lemma keeps_euid_for_each {A} (l : list A) (body : A → M unit) :
  (∀ x, keeps_euid (body x)) → keeps_euid (for_each l body).
Proof.
  intros Hb. induction l as [|x l IH]; simpl; [done|].
  by apply keeps_euid_bind.
Qed.

Lemma keeps_euid_fold_m {A S} (l : list A) (s : S) (body : A → S → M S) :
  (∀ x s, keeps_euid (body x s)) → keeps_euid (fold_m l s body).
Proof.
  intros Hb. revert s. induction l as [|x l IH]; intros s; simpl; [done|].
  by apply keeps_euid_bind.
Qed.

Lemma keeps_euid_try_finally {A} (m : M A) (c : M unit) :
  keeps_euid m → keeps_euid c → keeps_euid (try_finally m c).
Proof.
  intros Hm Hc w. unfold try_finally. specialize (Hm w).
  destruct (m w) as [o w1]. specialize (Hc w1).
  destruct (c w1) as [[[]|e] w2]; simpl in *; congruence.
Qed.

Ltac keeps_euid_prim :=
  intros ?w;
  cbv [FS.read FS.write FS.put FS.remove FS.stat_ FS.set_stat FS.chmod
       FS.chown FS.lookup FS.absolute FS.mkdir FS.makedirs_at FS.symlink
       emit logging record_usage signal get_world get_obj set_obj ret raise
       sys_exit];
  repeat case_match; done.

Ltac keeps_euid_step :=
  first
    [ apply keeps_euid_bind; [|intros ?]
    | apply keeps_euid_for_each; intros ?
    | apply keeps_euid_fold_m; intros ? ?
    | apply keeps_euid_try_finally
    | match goal with
      | |- keeps_euid (if negb ?b then _ else _) => destruct b; cbn [negb]
      | |- keeps_euid (if ?b then _ else _) => destruct b
      | |- keeps_euid (match ?o with _ => _ end) => destruct o
      end
    | keeps_euid_prim ].

Lemma keeps_euid_chroot_create (args : Args) :
  keeps_euid (chroot_create args).
Proof.
  unfold chroot_create, chroot_unpack_files, pack_inputs, should_restore_owner,
    Tarfile.extractall, Tarfile.extract, Tarfile.create, Tarfile.add,
    Tarfile.open_, Tarfile.getmember, load_config_file, make_dir_writable,
    download_file, write_dict, FS.copy, FS.copyfile, FS.exists_, FS.lexists,
    FS.is_link, FS.read_link, nth_run.
  repeat keeps_euid_step.
Qed.

(** X9. [chroot_setup] creates the target first and decides about the
    magic directories afterwards.  So for a process that is not root, once
    [chroot_create] has completed: with [--bind-magic-dirs] the command logs
    one critical line and exits with status 1, leaving the created target in
    place; with nothing asked it warns and returns; with
    [--dont-bind-magic-dirs] it returns silently.  In none of these cases is
    a mount command run. *)
Theorem chroot_setup_not_root (args : Args) (w w1 : world) :
  euid w ≠ 0 →
  chroot_create args w = (Ok tt, w1) →
  chroot_setup args w
  = match bind_magic_dirs args with
    | Some true =>
        (Raise (SystemExit 1),
         with_event
           (ELog CRITICAL "Not running as root, cannot mount /dev and /proc")
           w1)
    | None =>
        (Ok tt,
         with_event (EUsage "mount_magic_dirs" (VBool false))
           (with_event
              (ELog WARNING "Not running as root, won't mount /dev and /proc")
              w1))
    | Some false =>
        (Ok tt, with_event (EUsage "mount_magic_dirs" (VBool false)) w1)
    end.
Proof.
  intros Hu Hc.
  pose proof (keeps_euid_chroot_create args w) as He. rewrite Hc in He.
  cbn [snd] in He.
  unfold chroot_setup. unfold bind at 1. rewrite Hc.
  unfold bind at 1, should_mount_magic_dirs, bind at 1, get_world at 1.
  rewrite bool_decide_false by congruence. cbn [negb].
  by destruct (bind_magic_dirs args) as [[|]|].
Qed.

(** ** Strings *)

Lemma str_app_cons (x : ascii) (a b : string) :
  String x a ++ b = String x (a ++ b).
Proof. reflexivity. Qed.

Lemma str_app_nil_l (b : string) : "" ++ b = b.
Proof. reflexivity. Qed.

Ltac str_simpl :=
  rewrite ?str_app_cons, ?str_app_nil_l;
  cbn [String.length String.substring Str.drop String.prefix
       String.concat String.rev_app];
  rewrite ?str_app_cons, ?str_app_nil_l.


Lemma str_app_nil_r (a : string) : a ++ "" = a.
Proof. induction a as [|x a IH]; str_simpl; [done|]. by rewrite IH. Qed.





Lemma str_prefix_app (a b : string) : String.prefix a (a ++ b) = true.
Proof.
  induction a as [|x a IH]; str_simpl; [by destruct b|].
  by destruct (ascii_dec x x).
Qed.

Lemma str_take_length (n : nat) (s : string) :
  String.length (String.substring 0 n s) = (n `min` String.length s)%nat.
Proof.
  revert s. induction n as [|n IH]; intros [|a s]; str_simpl; try done.
  by rewrite IH.
Qed.

Lemma str_take_drop (n : nat) (s : string) :
  String.substring 0 n s ++ Str.drop n s = s.
Proof.
  revert s. induction n as [|n IH]; intros [|a s]; str_simpl; try done.
  by rewrite IH.
Qed.

Lemma str_drop_length (n : nat) (s : string) :
  String.length (Str.drop n s) = (String.length s - n)%nat.
Proof.
  revert s. induction n as [|n IH]; intros [|a s]; str_simpl;
    rewrite ?IH; cbn [Nat.sub]; done.
Qed.

Lemma str_take_all (n : nat) (s : string) :
  (String.length s ≤ n)%nat → String.substring 0 n s = s.
Proof.
  revert s. induction n as [|n IH]; intros [|a s]; str_simpl; try done.
  - lia.
  - intros H. rewrite IH; [done|lia].
Qed.


Lemma str_length_0 (s : string) : String.length s = 0%nat → s = "".
Proof. by destruct s. Qed.

Lemma str_concat_cons (x : string) (xs : list string) :
  String.concat "" (x :: xs) = x ++ String.concat "" xs.
Proof. destruct xs; str_simpl; [by rewrite str_app_nil_r|done]. Qed.

(** ** Streaming a file to the standard output *)

Lemma write_chunks_spec (n fuel : nat) (bytes : string) (w : world) :
  n = 1024%nat →
  (String.length bytes ≤ fuel)%nat →
  ∃ chunks,
    write_chunks fuel bytes w
    = (Ok tt, foldl (λ w c, with_event (EStdout (Raw c)) w) w chunks)
    ∧ String.concat "" chunks = bytes
    ∧ Forall (λ c, c ≠ "" ∧ (String.length c ≤ n)%nat) chunks.
Proof.
  intros Hn. revert bytes w.
  induction fuel as [|fuel IH]; intros bytes w Hlen.
  - apply Nat.le_0_r, str_length_0 in Hlen as ->. by exists [].
  - cbn [write_chunks]. rewrite <- Hn.
    pose proof (str_take_length n bytes) as Hl.
    pose proof (str_take_drop n bytes) as Htd.
    set (chunk := String.substring 0 n bytes) in *.
    case_bool_decide as Hc; cbn [negb].
    + (* nothing left *)
      rewrite Hc in Hl. cbn in Hl.
      assert (bytes = "") as ->.
      { apply str_length_0. subst n. lia. }
      exists []. unfold bind, ret. rewrite Hc. cbn.
      subst n. done.
    + unfold bind at 1, emit at 1.
      destruct (String.length chunk =? n)%nat eqn:E.
      * apply Nat.eqb_eq in E.
        destruct (IH (Str.drop n bytes) (with_event (EStdout (Raw chunk)) w))
          as (chunks & -> & Hcat & Hall).
        { rewrite str_drop_length. subst n. lia. }
        exists (chunk :: chunks). split; [done|]. split.
        -- by rewrite str_concat_cons, Hcat.
        -- constructor; [|done]. split; [done|lia].
      * apply Nat.eqb_neq in E.
        exists [chunk]. split; [done|]. split.
        -- cbn. unfold chunk. apply str_take_all. lia.
        -- constructor; [|done]. split; [done|lia].
Qed.

(** X10. [download_and_print] streams an output file that is in the
    target to the standard output in chunks: whatever the bytes of the file,
    the chunks written are, in order and put end to end, the bytes of the
    file; no chunk is empty and none is longer than 1024 bytes; the loop
    ends, nothing is logged and the file tree is as it was. *)
Theorem download_and_print_streams_the_file (root remote_path : rpath)
    (w : world) (bytes : string) (st : stat) :
  fs w !! FS.locate w (join_root root remote_path)
  = Some (File (Raw bytes) st) →
  ∃ chunks,
    download_and_print root remote_path w
    = (Ok tt, foldl (λ w c, with_event (EStdout (Raw c)) w) w chunks)
    ∧ String.concat "" chunks = bytes
    ∧ Forall (λ c, c ≠ "" ∧ (String.length c ≤ 1024)%nat) chunks.
Proof.
  intros Hr.
  destruct (write_chunks_spec 1024 (String.length bytes) bytes w eq_refl
              (Nat.le_refl _)) as (chunks & Hrun & Hcat & Hall).
  exists chunks. split; [|done].
  unfold download_and_print, FS.exists_, FS.lookup.
  unfold bind at 1. unfold bind at 1. rewrite Hr. unfold ret at 1.
  rewrite bool_decide_true by done. cbn [negb].
  unfold bind, FS.read. by rewrite Hr.
Qed.

(** ** Replacing and fetching one file *)

Ltac same_world :=
  repeat match goal with
         | |- context [FS.locate (with_fs ?f ?w0) ?p] =>
             change (FS.locate (with_fs f w0) p) with (FS.locate w0 p)
         end;
  cbn [fs cwd euid egid with_fs].

Lemma stat_eta (st : stat) : Stat (st_mode st) (st_uid st) (st_gid st) = st.
Proof. by destruct st. Qed.

Lemma with_fs_with_fs (f g : gmap (list string) node → gmap (list string) node)
    (w : world) :
  with_fs f (with_fs g w) = with_fs (λ m, f (g m)) w.
Proof. done. Qed.

Lemma with_fs_ext (f g : gmap (list string) node → gmap (list string) node)
    (w : world) :
  f (fs w) = g (fs w) → with_fs f w = with_fs g w.
Proof. unfold with_fs. by intros ->. Qed.

(** X11. [upload_file] replaces the content of the input file in the
    target and nothing else: the file keeps the owner it had and the
    permission bits of its old mode, the directory it is in has its mode back,
    and every other path holds what it held; this is so whether or not the
    owner is to be restored.  When the input file is not in the target, the
    call fails before anything has changed. *)
Theorem upload_file_replaces_content (self : LocalUploader_self)
    (local_path input_path : rpath) (w : world) :
  (∀ c rc lst rst pst,
     fs w !! FS.locate w (join_root (up_root self) input_path)
     = Some (File rc rst) →
     fs w !! FS.locate w (Path.parent (join_root (up_root self) input_path))
     = Some (Dir pst) →
     fs w !! FS.locate w local_path = Some (File c lst) →
     upload_file self local_path input_path w
     = (Ok tt,
        with_fs (insert (FS.locate w (join_root (up_root self) input_path))
                   (File c (Stat (Z.land (st_mode rst) o7777)
                              (st_uid rst) (st_gid rst)))) w))
  ∧ (fs w !! FS.locate w (join_root (up_root self) input_path) = None →
     upload_file self local_path input_path w
     = (Raise (IOError (FS.locate w (join_root (up_root self) input_path))),
        w)).
Proof.
  split.
  - intros c rc lst rst pst Hr Hp Hl.
    set (remote := join_root (up_root self) input_path) in *.
    assert (FS.locate w (Path.parent remote) ≠ FS.locate w remote) as Hne.
    { intros E. rewrite E in Hp. congruence. }
    assert (FS.locate w (Path.parent remote) ≠ FS.locate w local_path) as Hnl.
    { intros E. rewrite E in Hp. congruence. }
    unfold upload_file. fold remote.
    unfold bind at 1, FS.stat_ at 1. rewrite Hr.
    unfold make_dir_writable.
    unfold bind at 1, FS.stat_ at 1. rewrite Hp.
    unfold bind at 1, FS.chmod at 1, FS.set_stat at 1. cbv zeta. rewrite Hp.
    unfold try_finally, FS.copyfile.
    unfold bind at 1. unfold bind at 1, FS.read at 1. same_world.
    rewrite lookup_insert_ne by done. rewrite Hl.
    unfold FS.write at 1. cbv zeta. same_world.
    rewrite lookup_insert_ne by congruence. rewrite Hr.
    unfold bind at 1, FS.chmod at 1, FS.set_stat at 1. cbv zeta. same_world.
    rewrite lookup_insert_eq.
    assert (∀ w0 : world,
              fs w0 !! FS.locate w0 remote
              = Some (File c (Stat (Z.land (st_mode rst) o7777)
                                (st_uid rst) (st_gid rst))) →
              (if up_restore_owner self
               then FS.chown remote (st_uid rst) (st_gid rst)
               else ret tt) w0 = (Ok tt, with_fs (λ m, m) w0)
              ∨ (if up_restore_owner self
                 then FS.chown remote (st_uid rst) (st_gid rst)
                 else ret tt) w0
                = (Ok tt,
                   with_fs (insert (FS.locate w0 remote)
                              (File c (Stat (Z.land (st_mode rst) o7777)
                                         (st_uid rst) (st_gid rst)))) w0))
      as Hown.
    { intros w0 H0. destruct (up_restore_owner self).
      - right. unfold FS.chown, FS.set_stat. cbv zeta. by rewrite H0.
      - left. by destruct w0. }
    match goal with
    | |- context [(if up_restore_owner self then _ else _) ?w0] =>
        destruct (Hown w0) as [-> | ->]
    end.
    { same_world. by rewrite lookup_insert_eq. }
    + unfold FS.chmod, FS.set_stat. cbv zeta. same_world.
      rewrite lookup_insert_ne by congruence.
      rewrite lookup_insert_ne by congruence.
      rewrite lookup_insert_eq. cbn [st_mode st_uid st_gid].
      rewrite stat_eta. rewrite !with_fs_with_fs.
      f_equal. apply with_fs_ext. apply map_eq. intros k.
      destruct (decide (k = FS.locate w (Path.parent remote))) as [->|Hk].
      * rewrite lookup_insert_eq, lookup_insert_ne by congruence. done.
      * rewrite lookup_insert_ne by congruence.
        destruct (decide (k = FS.locate w remote)) as [->|Hk'].
        -- by rewrite !lookup_insert_eq.
        -- by rewrite !lookup_insert_ne by congruence.
    + unfold FS.chmod, FS.set_stat. cbv zeta. same_world.
      do 3 rewrite lookup_insert_ne by congruence.
      rewrite lookup_insert_eq. cbn [st_mode st_uid st_gid].
      rewrite stat_eta. rewrite !with_fs_with_fs.
      f_equal. apply with_fs_ext. apply map_eq. intros k.
      destruct (decide (k = FS.locate w (Path.parent remote))) as [->|Hk].
      * rewrite lookup_insert_eq, lookup_insert_ne by congruence. done.
      * rewrite lookup_insert_ne by congruence.
        destruct (decide (k = FS.locate w remote)) as [->|Hk'].
        -- by rewrite !lookup_insert_eq.
        -- by rewrite !lookup_insert_ne by congruence.
  - intros Hr. unfold upload_file, bind, FS.stat_. by rewrite Hr.
Qed.

(** X12. [download] of one output file into a local file.  When the
    output file is in the target, the local file then holds its content and
    has its mode; a local file that was there keeps its owner, a new one
    belongs to the user; the output file itself and every other path are as
    they were.  Nothing is logged. *)
Theorem download_copies_content_and_mode (root remote_path local_path : rpath)
    (w : world) (c : content) (rst : stat) :
  fs w !! FS.locate w (join_root root remote_path) = Some (File c rst) →
  (∀ c0 lst,
     fs w !! FS.locate w local_path = Some (File c0 lst) →
     download_to root remote_path local_path w
     = (Ok tt,
        with_fs (insert (FS.locate w local_path)
                   (File c (Stat (st_mode rst) (st_uid lst) (st_gid lst))))
          w))
  ∧ (∀ pst,
       fs w !! FS.locate w local_path = None →
       fs w !! removelast (FS.locate w local_path) = Some (Dir pst) →
       download_to root remote_path local_path w
       = (Ok tt,
          with_fs (insert (FS.locate w local_path)
                     (File c (Stat (st_mode rst) (euid w) (egid w))))
            w)).
Proof.
  intros Hr.
  set (remote := join_root root remote_path) in *.
  assert (∀ st0,
            (fs w !! FS.locate w local_path = None
             ∨ ∃ c0, fs w !! FS.locate w local_path = Some (File c0 st0)) →
            FS.write local_path c w
            = (Ok tt, with_fs (insert (FS.locate w local_path) (File c st0)) w)
            →
            download_to root remote_path local_path w
            = (Ok tt,
               with_fs (insert (FS.locate w local_path)
                          (File c (Stat (st_mode rst) (st_uid st0)
                                     (st_gid st0)))) w)) as Hgen.
  { intros st0 Hl Hw.
    unfold download_to. fold remote.
    unfold FS.exists_, FS.lookup. unfold bind at 1. unfold bind at 1.
    rewrite Hr. unfold ret at 1.
    rewrite bool_decide_true by done. cbn [negb].
    unfold FS.copyfile. unfold bind at 1. unfold bind at 1, FS.read at 1.
    rewrite Hr. rewrite Hw.
    assert (fs (with_fs (insert (FS.locate w local_path) (File c st0)) w)
            !! FS.locate w remote = Some (File c rst)) as Hr'.
    { cbn [fs with_fs].
      destruct (decide (FS.locate w local_path = FS.locate w remote))
        as [E|E].
      - rewrite E, lookup_insert_eq. rewrite E in Hl.
        destruct Hl as [Hl|[c0 Hl]]; rewrite Hr in Hl; congruence.
      - by rewrite lookup_insert_ne. }
    unfold FS.copymode, bind, FS.stat_. same_world.
    cbn [fs with_fs] in Hr'. rewrite Hr'.
    unfold FS.chmod, FS.set_stat. cbv zeta. same_world.
    rewrite lookup_insert_eq. rewrite with_fs_with_fs.
    f_equal. apply with_fs_ext. by rewrite insert_insert_eq. }
  split.
  - intros c0 lst Hl.
    apply (Hgen lst); [by right; exists c0|].
    unfold FS.write. cbv zeta. by rewrite Hl.
  - intros pst Hl Hp.
    apply (Hgen (Stat o644 (euid w) (egid w))); [by left|].
    unfold FS.write. cbv zeta. by rewrite Hl, Hp.
Qed.

(** ** The names of the packed input files *)

Lemma join_cons_ne (x : string) (l : list string) :
  l ≠ [] → Str.join "/" (x :: l) = x ++ "/" ++ Str.join "/" l.
Proof. by destruct l. Qed.

Lemma to_string_relative (l : list string) :
  l ≠ [] → Path.to_string (RPath false l) = Str.join "/" l.
Proof. by destruct l. Qed.

Lemma getmember_last (ms : list TarInfo_t) (m : TarInfo_t) :
  Tarfile.getmember (name m) (ms ++ [m]) = ret m.
Proof.
  unfold Tarfile.getmember. rewrite rev_app_distr. cbn [rev app find].
  by rewrite bool_decide_true.
Qed.

(** X13. The two ends of restoring an input file agree on its name in
    [inputs.tar.gz].  The setup stores the file under [str(PosixPath(ifile))],
    from which the archive takes the leading root marker off; [upload] looks
    for [str(join_root(PosixPath(''), input_path))].  For every absolute path
    other than the root itself these are the same name: once the file has
    been added, the archive opens and the member looked for is the one
    added, with the content and the mode of the file. *)
Theorem packed_input_is_found (archive src : rpath) (s : string)
    (w w' : world) (c : content) (st : stat) :
  is_absolute (Path.of_string s) = true →
  segs (Path.of_string s) ≠ [] →
  fs w !! FS.locate w src = Some (File c st) →
  Tarfile.add archive src (Path.to_string (Path.of_string s)) w
  = (Ok tt, w') →
  ∃ ms,
    Tarfile.open_ archive w' = (Ok ms, w')
    ∧ Tarfile.getmember
        (Path.to_string (join_root (Path.of_string "") (Path.of_string s)))
        ms w'
      = (Ok (TarInfo (Str.join "/" (segs (Path.of_string s))) REGTYPE ""
                     (st_uid st) (st_gid st) (st_mode st) c), w').
Proof.
  intros Habs Hne Hsrc Hadd.
  pose proof (of_string_absolute_plain s Habs) as Hplain.
  assert (Path.to_string (join_root (Path.of_string "") (Path.of_string s))
          = Str.join "/" (segs (Path.of_string s))) as ->.
  { unfold join_root.
    change (is_absolute (Path.of_string "")) with false.
    change (segs (Path.of_string "")) with (@nil string).
    rewrite app_nil_l, norm_plain_id by done. cbn [rev app].
    by apply to_string_relative. }
  assert (Path.to_string (Path.of_string s)
          = "/" ++ Str.join "/" (segs (Path.of_string s))) as Hts.
  { unfold Path.to_string. by rewrite Habs. }
  rewrite Hts in Hadd.
  revert Hadd. unfold Tarfile.add, FS.lookup.
  unfold bind at 1. rewrite Hsrc.
  unfold bind at 1, Tarfile.open_ at 1. unfold bind at 1, FS.read at 1.
  destruct (fs w !! FS.locate w archive) as [[|ca sa|]|] eqn:Ea; try done.
  destruct ca as [| | |ms]; try done.
  unfold ret at 1.
  assert (Str.startswith "/" ("/" ++ Str.join "/" (segs (Path.of_string s)))
          = true) as -> by apply str_prefix_app.
  change (Str.drop 1 ("/" ++ ?x)) with x.
  unfold FS.write. cbv zeta. rewrite Ea.
  intros [= <-].
  eexists. split.
  - unfold Tarfile.open_, bind, FS.read. same_world.
    rewrite lookup_insert_eq. reflexivity.
  - match goal with
    | |- Tarfile.getmember ?n (_ ++ [?m]) _ = _ =>
        change n with (name m)
    end.
    by rewrite getmember_last.
Qed.

(** ** Where the members of a pack are written *)
















(** ** The library directories *)








(** ** What a completed chroot setup holds *)

Lemma keeps_present_there {A} (m : M A) : keeps_present m → keeps_there m.
Proof.
  intros H w. destruct (H w) as [Hc Hn]. split; [done|].
  intros k [n Hk]. exists n. by apply Hn.
Qed.

Lemma keeps_there_bind {A B} (m : M A) (k : A → M B) :
  keeps_there m → (∀ a, keeps_there (k a)) → keeps_there (bind m k).
Proof.
  intros Hm Hk w. unfold bind. destruct (Hm w) as [Hc Hn].
  destruct (m w) as [[a|e] w1]; cbn [snd] in *; [|done].
  destruct (Hk a w1) as [Hc' Hn']. split; [congruence|].
  intros k0 H. by apply Hn', Hn.
Qed.

Lemma keeps_there_for_each {A} (l : list A) (body : A → M unit) :
  (∀ x, keeps_there (body x)) → keeps_there (for_each l body).
Proof.
  intros Hb. induction l as [|x l IH]; simpl; [done|].
  by apply keeps_there_bind.
Qed.

Lemma keeps_there_fold_m {A S} (l : list A) (s : S) (body : A → S → M S) :
  (∀ x s, keeps_there (body x s)) → keeps_there (fold_m l s body).
Proof.
  intros Hb. revert s. induction l as [|x l IH]; intros s; simpl; [done|].
  by apply keeps_there_bind.
Qed.

Lemma keeps_there_try_finally {A} (m : M A) (c : M unit) :
  keeps_there m → keeps_there c → keeps_there (try_finally m c).
Proof.
  intros Hm Hc w. unfold try_finally. destruct (Hm w) as [H1 H2].
  destruct (m w) as [o w1]. cbn [snd] in *.
  destruct (Hc w1) as [H3 H4].
  destruct (c w1) as [[u|e] w2]; cbn [snd] in *;
    (split; [congruence|]); intros k Hk; by apply H4, H2.
Qed.

Lemma keeps_there_mkdir (parents : bool) (p : rpath) :
  keeps_there (FS.mkdir parents p).
Proof. apply keeps_present_there, keeps_present_mkdir. Qed.

Ltac keeps_there_prim :=
  intros ?w;
  cbv [FS.read FS.write FS.put FS.stat_ FS.set_stat FS.chmod FS.chown
       FS.lookup FS.absolute FS.symlink emit logging record_usage signal
       get_world ret raise sys_exit];
  repeat case_match; (split; [done|]);
  intros ?k ?Hk; cbn [snd fs with_fs with_event];
  first [ done | apply lookup_insert_is_Some'; by right ].

Ltac keeps_there_step :=
  first
    [ apply keeps_there_bind; [|intros ?]
    | apply keeps_there_for_each; intros ?
    | apply keeps_there_fold_m; intros ? ?
    | apply keeps_there_try_finally
    | apply keeps_there_mkdir
    | match goal with
      | |- keeps_there (if negb ?b then _ else _) => destruct b; cbn [negb]
      | |- keeps_there (if ?b then _ else _) => destruct b
      | |- keeps_there (match ?o with _ => _ end) => destruct o
      end
    | keeps_there_prim ].

Ltac keeps_there_all :=
  unfold chroot_unpack_files, pack_inputs, should_restore_owner,
    Tarfile.extractall, Tarfile.extract, Tarfile.create, Tarfile.add,
    Tarfile.open_, Tarfile.getmember, load_config_file, make_dir_writable,
    download_file, write_dict, FS.copy, FS.copyfile, FS.exists_, FS.lexists,
    FS.is_link, FS.read_link, nth_run;
  repeat keeps_there_step.

Lemma hoare_bind {A B} (P : world → Prop) (m : M A) (Q : A → world → Prop)
    (k : A → M B) (R : B → world → Prop) :
  hoare P m Q → (∀ a, hoare (Q a) (k a) R) → hoare P (bind m k) R.
Proof.
  intros Hm Hk w b w' HP H.
  apply bind_Ok_inv in H as (a & w1 & H1 & H2).
  eapply Hk; [|exact H2]. by eapply Hm.
Qed.

Lemma hoare_raise {A} (P : world → Prop) (e : exn)
    (Q : A → world → Prop) :
  hoare P (raise e) Q.
Proof. by intros w a w' _ H. Qed.

Lemma hoare_try_finally {A} (P : world → Prop) (m : M A)
    (Q : A → world → Prop) (c : M unit) (R : A → world → Prop) :
  hoare P m Q → (∀ a, hoare (Q a) c (λ _, R a)) →
  hoare P (try_finally m c) R.
Proof.
  intros Hm Hc w a w' HP. unfold try_finally.
  destruct (m w) as [o w1] eqn:E1. destruct (c w1) as [[u|e] w2] eqn:E2;
    [|done].
  intros [= -> <-]. eapply Hc; [|exact E2]. by eapply Hm.
Qed.

Lemma hoare_frame {A} (c : list string) (ks : list (list string))
    (m : M A) :
  keeps_there m → hoare (there c ks) m (λ _, there c ks).
Proof.
  intros Hm w a w' [Hc Hks] H. destruct (Hm w) as [H1 H2].
  rewrite H in H1, H2. cbn [snd] in *. split; [congruence|].
  eapply Forall_impl; [exact Hks|]. intros k. apply H2.
Qed.

Lemma hoare_frame_sub {A} (c : list string) (ks ks' : list (list string))
    (m : M A) :
  ks' ⊆ ks → keeps_there m → hoare (there c ks) m (λ _, there c ks').
Proof.
  intros Hsub Hm w a w' HP H.
  destruct (hoare_frame c ks m Hm w a w' HP H) as [Hc Hks].
  split; [done|]. rewrite Forall_forall in *. intros k Hk.
  by apply Hks, Hsub.
Qed.

Lemma hoare_absolute (w0 : world) (ks : list (list string)) (p : rpath) :
  hoare (there (cwd w0) ks) (FS.absolute p)
    (λ r w, r = RPath true (FS.locate w0 p) ∧ there (cwd w0) ks w).
Proof.
  intros w r w' [Hc Hks] [= <- <-]. split; [|done].
  by rewrite (locate_same_cwd w0 w).
Qed.

Lemma hoare_pure {A} (φ : Prop) (P : world → Prop) (m : M A)
    (Q : A → world → Prop) :
  (φ → hoare P m Q) → hoare (λ w, φ ∧ P w) m Q.
Proof. intros H w a w' [Hφ HP]. by apply H. Qed.

Lemma hoare_lexists (c : list string) (ks : list (list string)) (p : rpath) :
  is_absolute p = true →
  hoare (there c ks) (FS.lexists p)
    (λ b, there c (if b then segs p :: ks else ks)).
Proof.
  intros Hp w b w' [Hc Hks].
  unfold FS.lexists, FS.exists_, FS.lookup, bind, ret.
  intros [= <- <-]. split; [done|].
  case_bool_decide as E; [|done]. constructor; [|done].
  unfold FS.locate in E. by rewrite Hp in E.
Qed.

Lemma hoare_symlink (c : list string) (ks : list (list string)) (p : rpath)
    (t : string) :
  is_absolute p = true →
  hoare (there c ks) (FS.symlink p t) (λ _, there c (segs p :: ks)).
Proof.
  intros Hp w u w' [Hc Hks]. unfold FS.symlink, FS.locate. rewrite Hp.
  cbv zeta. destruct (fs w !! segs p); [done|].
  intros [= <- <-]. split; [exact Hc|]. cbn [fs with_fs]. constructor.
  - rewrite lookup_insert_eq. by eexists.
  - eapply Forall_impl; [exact Hks|]. intros k Hk.
    apply lookup_insert_is_Some'. by right.
Qed.

Ltac hoare_step :=
  cbv zeta;
  lazymatch goal with
  | |- hoare _ (bind (FS.absolute _) _) _ => fail
  | |- hoare _ (bind (FS.lexists _) _) _ => fail
  | |- hoare _ (bind (FS.symlink _ _) _) _ => fail
  | |- hoare _ (FS.symlink _ _) _ => fail
  | |- hoare _ (try_finally _ _) _ => fail
  | |- hoare _ (bind (if negb ?b then _ else _) _) _ =>
      destruct b; cbn [negb orb]
  | |- hoare _ (bind (if ?b then _ else _) _) _ => destruct b
  | |- hoare _ (bind _ _) _ =>
      eapply hoare_bind;
      [apply hoare_frame; keeps_there_all | intros ?]
  | |- hoare _ (if negb ?b then _ else _) _ => destruct b; cbn [negb orb]
  | |- hoare _ (if ?b then _ else _) _ => destruct b
  | |- hoare _ (sys_exit _) _ => apply hoare_raise
  | |- hoare _ (raise _) _ => apply hoare_raise
  end.

Lemma there_sub (c : list string) (ks ks' : list (list string)) (w : world) :
  ks' ⊆ ks → there c ks w → there c ks' w.
Proof.
  intros Hsub [Hc Hks]. split; [done|]. rewrite Forall_forall in *.
  intros k Hk. by apply Hks, Hsub.
Qed.

Lemma hoare_post {A} (P : world → Prop) (m : M A) (Q Q' : A → world → Prop) :
  hoare P m Q → (∀ a w, Q a w → Q' a w) → hoare P m Q'.
Proof. intros H HQ w a w' HP Hm. by eapply HQ, H. Qed.

Ltac sub_list :=
  let k := fresh "k" in
  let Hk := fresh "Hk" in
  intros k Hk; rewrite ?elem_of_cons in Hk; rewrite ?elem_of_cons;
  tauto.

Lemma chroot_create_links (args : Args) (w0 : world) (sh env : rpath) :
  sh = join_root
         (RPath true (FS.locate w0 (Path.of_string (target args) // "root")))
         (Path.of_string "/bin/sh") →
  env = join_root
          (RPath true (FS.locate w0 (Path.of_string (target args) // "root")))
          (Path.of_string "/usr/bin/env") →
  hoare (there (cwd w0) []) (chroot_create args)
    (λ _, there (cwd w0) [segs sh; segs env]).
Proof.
  intros Hsh Henv.
  unfold chroot_create. repeat hoare_step.
  eapply hoare_bind; [apply hoare_absolute|]. intros r.
  apply hoare_pure. intros ->. rewrite <- Hsh, <- Henv.
  repeat hoare_step. (*MARK*)
  all: cbv beta.
  all: assert (is_absolute sh = true) as Hash by (by rewrite Hsh).
  all: assert (is_absolute env = true) as Hae by (by rewrite Henv).
  all: eapply hoare_bind; [apply hoare_lexists; exact Hash|]; intros has_sh.
  all: eapply hoare_bind; [apply hoare_lexists; exact Hae|]; intros has_env.
  all: eapply (hoare_bind _ _ (λ _, there (cwd w0) [segs sh; segs env]));
    [|intros ?; repeat hoare_step; apply hoare_frame; keeps_there_all].
  all: destruct has_sh, has_env; cbn [negb orb]; cbv beta iota.
  all: try lazymatch goal with
           | |- hoare _ (ret _) _ =>
               apply hoare_frame_sub; [sub_list|keeps_there_all]
           end.
  all: repeat hoare_step.
  all: unfold make_dir_writable; repeat hoare_step.
  all: eapply (hoare_try_finally _ _ (λ _, there (cwd w0) [segs sh; segs env]));
    [|intros ?; apply hoare_frame; keeps_there_all].
  all: repeat hoare_step.
  all: eapply hoare_bind; [apply hoare_lexists; exact Hash|].
  all: intros [|]; cbn [negb]; cbv beta iota.
  all: lazymatch goal with
       | |- hoare _ (bind (ret _) _) _ =>
           eapply hoare_bind; [apply hoare_frame; keeps_there_all|intros ?]
       | |- hoare _ (bind (bind _ _) _) _ =>
           eapply hoare_bind;
           [eapply hoare_bind;
            [apply hoare_frame; keeps_there_all
            |intros ?; apply hoare_symlink; exact Hash]
           |intros ?]
       end.
  all: cbv beta.
  all: eapply hoare_bind; [apply hoare_lexists; exact Hae|].
  all: intros [|]; cbn [negb]; cbv beta iota.
  all: lazymatch goal with
       | |- hoare _ (ret _) _ =>
           apply hoare_frame_sub; [sub_list|keeps_there_all]
       | |- hoare _ (bind _ _) _ =>
           eapply hoare_bind; [apply hoare_frame; keeps_there_all|intros ?];
           (eapply hoare_post; [apply hoare_symlink; exact Hae|]);
           intros ? ?; apply there_sub; sub_list
       end.
Qed.

(** X16. A chroot setup that completes leaves a shell and an [env] in the
    root: whatever the pack held, [root/bin/sh] and [root/usr/bin/env] are
    there afterwards, from the pack or as links to the busybox that was
    fetched.  ([chroot_run] runs its command through both.) *)
Theorem completed_chroot_has_a_shell (args : Args) (w w' : world) :
  chroot_create args w = (Ok tt, w') →
  FS.lexists
    (join_root
       (RPath true (FS.locate w (Path.of_string (target args) // "root")))
       (Path.of_string "/bin/sh")) w' = (Ok true, w')
  ∧ FS.lexists
      (join_root
         (RPath true (FS.locate w (Path.of_string (target args) // "root")))
         (Path.of_string "/usr/bin/env")) w' = (Ok true, w').
Proof.
  intros H.
  destruct (chroot_create_links args w _ _ eq_refl eq_refl w tt w')
    as [_ Hks]; [by split|done|].
  apply Forall_cons in Hks as [Hsh Hks].
  apply Forall_cons in Hks as [Henv _].
  unfold FS.lexists, FS.exists_, FS.lookup, bind, ret, FS.locate.
  cbn [is_absolute join_root].
  split; by rewrite bool_decide_true.
Qed.

End Unpackers.

(** * The properties on the example pack and targets *)





(** C3, an instance: the directory command [destroy] on a chroot target. *)
Lemma wrong_kind_fails_before_mutation_witness :
  func id id Ex.first_run directory_destroy_cmd Ex.args0 Ex.plain_chroot
  = (Raise UsageError,
     with_event (ELog CRITICAL "Wrong unpacker used: chroot != directory")
       Ex.plain_chroot)
  ∧ fs (snd (func id id Ex.first_run directory_destroy_cmd Ex.args0
               Ex.plain_chroot))
    = fs Ex.plain_chroot
  ∧ exit_status (fst (func id id Ex.first_run directory_destroy_cmd Ex.args0
                        Ex.plain_chroot)) ≠ 0.
Proof.
  apply (wrong_kind_fails_before_mutation id id Ex.first_run
           directory_destroy_cmd Ex.args0 Ex.plain_chroot
           "directory" "chroot" Ex.chroot_record
           (Stat o755 1000 1000) (Stat o644 1000 1000)).
  - reflexivity.
  - vm_compute; reflexivity.
  - vm_compute; reflexivity.
  - vm_compute; reflexivity.
  - discriminate.
Defined.


(** C7, an instance: unmounting the mounted target twice, and unmounting
    the target that was never mounted. *)
Lemma chroot_unmount_idempotent_witness :
  chroot_unmount (Path.of_string "/t") Ex.plain_chroot
  = (Ok false, Ex.plain_chroot)
  ∧ fst (chroot_unmount (Path.of_string "/t") Ex.mounted_chroot) = Ok true
  ∧ chroot_unmount (Path.of_string "/t")
      (snd (chroot_unmount (Path.of_string "/t") Ex.mounted_chroot))
    = (Ok false,
       snd (chroot_unmount (Path.of_string "/t") Ex.mounted_chroot)).
Proof.
  split; [|split].
  - apply (proj1 (chroot_unmount_idempotent (Path.of_string "/t")
                    Ex.plain_chroot Ex.chroot_record
                    (Stat o644 1000 1000)
                    ltac:(vm_compute; reflexivity)
                    ltac:(vm_compute; reflexivity))).
    vm_compute; reflexivity.
  - vm_compute; reflexivity.
  - apply (proj2 (chroot_unmount_idempotent (Path.of_string "/t")
                    Ex.mounted_chroot
                    Ex.mounted_record
                    (Stat o644 1000 1000)
                    ltac:(vm_compute; reflexivity)
                    ltac:(vm_compute; reflexivity)) true).
    vm_compute; reflexivity.
Defined.






(** * Further instances, on the example pack and targets *)

(** X1, an instance: a record written over the one of the chroot target. *)
Lemma write_dict_read_dict_witness :
  read_dict (Path.of_string "/t/.reprounzip") (Some "chroot")
    (snd (write_dict (Path.of_string "/t/.reprounzip") Ex.chroot_record
            "chroot" Ex.plain_chroot))
  = (Ok (Ex.chroot_record ∪ {["unpacker" := VStr "chroot"]}),
     snd (write_dict (Path.of_string "/t/.reprounzip") Ex.chroot_record
            "chroot" Ex.plain_chroot)).
Proof.
  pose proof (write_dict_read_dict (Path.of_string "/t/.reprounzip")
                Ex.chroot_record "chroot" Ex.plain_chroot
                (snd (write_dict (Path.of_string "/t/.reprounzip")
                        Ex.chroot_record "chroot" Ex.plain_chroot))
                ltac:(vm_compute; reflexivity)) as [_ H].
  exact H.
Defined.

(** X2, an instance: the record of the chroot target. *)
Lemma read_dict_sound_witness :
  Ex.plain_chroot = Ex.plain_chroot
  ∧ (∃ st, fs Ex.plain_chroot
           !! FS.locate Ex.plain_chroot (Path.of_string "/t/.reprounzip")
           = Some (File (Pickled Ex.chroot_record) st))
  ∧ Ex.chroot_record !! "unpacker" = Some (VStr "chroot").
Proof.
  apply (read_dict_sound (Path.of_string "/t/.reprounzip") "chroot"
           Ex.plain_chroot Ex.plain_chroot Ex.chroot_record).
  vm_compute; reflexivity.
Defined.

(** X3, an instance: the chroot target that was never mounted. *)
Lemma destroy_unmount_needs_mounted_witness :
  chroot_destroy_unmount Ex.args0 Ex.plain_chroot
  = (Raise (SystemExit 1),
     with_event (ELog CRITICAL "Magic directories were not mounted")
       Ex.plain_chroot)
  ∧ exit_status (fst (chroot_destroy_unmount Ex.args0 Ex.plain_chroot)) = 1
  ∧ fs (snd (chroot_destroy_unmount Ex.args0 Ex.plain_chroot))
    = fs Ex.plain_chroot.
Proof.
  apply (destroy_unmount_needs_mounted Ex.args0 Ex.plain_chroot
           Ex.chroot_record (Stat o755 1000 1000) (Stat o644 1000 1000));
    vm_compute; reflexivity.
Defined.


(** X5, an instance: a pack that is not there. *)
Lemma setup_without_config_writes_nothing_witness :
  directory_create (Ex.setup_args "/packs/none.rpz") Ex.host
  = (Raise (IOError ["packs"; "none.rpz"]),
     with_event (ESignal "pre_setup") Ex.host)
  ∧ (∃ e', fst (chroot_create id (Ex.setup_args "/packs/none.rpz") Ex.host)
           = Raise e')
  ∧ fs (snd (chroot_create id (Ex.setup_args "/packs/none.rpz") Ex.host))
    = fs Ex.host.
Proof.
  apply (setup_without_config_writes_nothing id
           (Ex.setup_args "/packs/none.rpz") Ex.host
           (snd (find_config (Path.of_string "/packs/none.rpz") Ex.host))
           "/packs/none.rpz" (IOError ["packs"; "none.rpz"]));
    vm_compute; reflexivity.
Defined.

(** X6, an instance: the directory setup of the example pack. *)
Lemma completed_setup_leaves_its_record_witness :
  read_dict (Path.of_string "/t" // ".reprounzip") (Some "directory")
    (snd (directory_create (Ex.setup_args "/packs/good.rpz") Ex.host))
  = (Ok (fresh_record "directory"),
     snd (directory_create (Ex.setup_args "/packs/good.rpz") Ex.host)).
Proof.
  apply (completed_setup_leaves_its_record id
           (Ex.setup_args "/packs/good.rpz") Ex.host
           (snd (directory_create (Ex.setup_args "/packs/good.rpz") Ex.host))
           "directory").
  left. split; [reflexivity|]. vm_compute; reflexivity.
Defined.

(** X7, an instance: destroying the directory target. *)
Lemma directory_destroy_removes_the_tree_witness :
  fst (directory_destroy Ex.args0 Ex.directory_target) = Ok tt
  ∧ (∀ p, fs (snd (directory_destroy Ex.args0 Ex.directory_target)) !! p
          = if bool_decide
                 (FS.locate Ex.directory_target
                    (Path.of_string (target Ex.args0)) `prefix_of` p)
            then None else fs Ex.directory_target !! p)
  ∧ trace (snd (directory_destroy Ex.args0 Ex.directory_target))
    = (trace Ex.directory_target
       ++ [ELog INFO ("Removing directory "
                      ++ Path.to_string (Path.of_string (target Ex.args0))
                      ++ "...");
           ESignal "pre_destroy"; ESignal "post_destroy"])%list.
Proof.
  apply (directory_destroy_removes_the_tree Ex.args0 Ex.directory_target
           Ex.directory_record (Stat o755 1000 1000) (Stat o644 1000 1000));
    vm_compute; reflexivity.
Defined.

(** X8, an instance: mounting on the chroot target, whose record then names
    the unpacker and the flag; every other node is kept. *)
Lemma chroot_mount_record_witness :
  fs (snd (chroot_mount Ex.args0 Ex.plain_chroot)) !! ["t"; ".reprounzip"]
  = Some (File (Pickled mounted_record) (Stat o644 1000 1000))
  ∧ ∀ k n,
      k ≠ ["t"; ".reprounzip"] →
      fs Ex.plain_chroot !! k = Some n →
      fs (snd (chroot_mount Ex.args0 Ex.plain_chroot)) !! k = Some n.
Proof.
  pose proof (chroot_mount_record Ex.args0 Ex.plain_chroot
                Ex.chroot_record (Stat o755 1000 1000) (Stat o644 1000 1000)
                ltac:(vm_compute; reflexivity) ltac:(vm_compute; reflexivity)
                ltac:(vm_compute; reflexivity)) as [H1 H2].
  split.
  - destruct (chroot_mount Ex.args0 Ex.plain_chroot) as [[u|e] w'] eqn:E.
    + exact (proj1 H1).
    + vm_compute in E. discriminate E.
  - exact H2.
Defined.

(** X9, an instance: the chroot setup of the example pack by a user who is
    not root and asked for nothing. *)
Lemma chroot_setup_not_root_witness :
  chroot_setup id (Ex.setup_args "/packs/good.rpz") Ex.host
  = (Ok tt,
     with_event (EUsage "mount_magic_dirs" (VBool false))
       (with_event
          (ELog WARNING "Not running as root, won't mount /dev and /proc")
          (snd (chroot_create id (Ex.setup_args "/packs/good.rpz")
                  Ex.host)))).
Proof.
  apply (chroot_setup_not_root id (Ex.setup_args "/packs/good.rpz") Ex.host
           (snd (chroot_create id (Ex.setup_args "/packs/good.rpz")
                   Ex.host))).
  - vm_compute. discriminate.
  - vm_compute; reflexivity.
Defined.

(** X10, an instance: the log of the directory target, streamed. *)
Lemma download_and_print_streams_the_file_witness :
  ∃ chunks,
    download_and_print (RPath true ["t"; "root"])
      (Path.of_string "/home/user/log.txt") Ex.directory_target
    = (Ok tt,
       foldl (λ w c, with_event (EStdout (Raw c)) w) Ex.directory_target
         chunks)
    ∧ String.concat "" chunks = "done"
    ∧ Forall (λ c, c ≠ "" ∧ (String.length c ≤ 1024)%nat) chunks.
Proof.
  apply (download_and_print_streams_the_file (RPath true ["t"; "root"])
           (Path.of_string "/home/user/log.txt") Ex.directory_target
           "done" (Stat o644 1000 1000)).
  vm_compute; reflexivity.
Defined.

(** X11, an instance: the input file of the directory target replaced by
    the content of another file. *)
Lemma upload_file_replaces_content_witness :
  upload_file
    (Build_LocalUploader_self (Path.of_string "/t") "directory" None false
       (RPath true ["t"; "root"]))
    (Path.of_string "/t/root/home/user/log.txt")
    (Path.of_string "/home/user/in.txt") Ex.directory_target
  = (Ok tt,
     with_fs (insert ["t"; "root"; "home"; "user"; "in.txt"]
                (File (Raw "done") (Stat o644 1000 1000)))
       Ex.directory_target).
Proof.
  apply (proj1 (upload_file_replaces_content
                  (Build_LocalUploader_self (Path.of_string "/t") "directory"
                     None false (RPath true ["t"; "root"]))
                  (Path.of_string "/t/root/home/user/log.txt")
                  (Path.of_string "/home/user/in.txt") Ex.directory_target)
           (Raw "done") (Raw "input") (Stat o644 1000 1000)
           (Stat o644 1000 1000) (Stat o755 1000 1000));
    vm_compute; reflexivity.
Defined.

(** X12, an instance: the log of the directory target fetched into a new
    file of the working directory. *)
Lemma download_copies_content_and_mode_witness :
  download_to (RPath true ["t"; "root"]) (Path.of_string "/home/user/log.txt")
    (Path.of_string "log.txt") Ex.directory_target
  = (Ok tt,
     with_fs (insert ["work"; "log.txt"]
                (File (Raw "done") (Stat o644 1000 1000)))
       Ex.directory_target).
Proof.
  apply (proj2 (download_copies_content_and_mode (RPath true ["t"; "root"])
                  (Path.of_string "/home/user/log.txt")
                  (Path.of_string "log.txt") Ex.directory_target
                  (Raw "done") (Stat o644 1000 1000)
                  ltac:(vm_compute; reflexivity))
           (Stat o755 1000 1000));
    vm_compute; reflexivity.
Defined.

(** X13, an instance: the input file of the example run, packed and found
    again. *)
Lemma packed_input_is_found_witness :
  ∃ ms,
    Tarfile.open_ (Path.of_string "/t/inputs.tar.gz")
      (snd (Tarfile.add (Path.of_string "/t/inputs.tar.gz")
              (Path.of_string "/t/root/home/user/in.txt")
              (Path.to_string (Path.of_string "/home/user/in.txt"))
              Ex.directory_target))
    = (Ok ms,
       snd (Tarfile.add (Path.of_string "/t/inputs.tar.gz")
              (Path.of_string "/t/root/home/user/in.txt")
              (Path.to_string (Path.of_string "/home/user/in.txt"))
              Ex.directory_target))
    ∧ Tarfile.getmember
        (Path.to_string (join_root (Path.of_string "")
                           (Path.of_string "/home/user/in.txt")))
        ms
        (snd (Tarfile.add (Path.of_string "/t/inputs.tar.gz")
                (Path.of_string "/t/root/home/user/in.txt")
                (Path.to_string (Path.of_string "/home/user/in.txt"))
                Ex.directory_target))
      = (Ok (TarInfo (Str.join "/" (segs (Path.of_string "/home/user/in.txt")))
                     REGTYPE "" 1000 1000 o644 (Raw "input")),
         snd (Tarfile.add (Path.of_string "/t/inputs.tar.gz")
                (Path.of_string "/t/root/home/user/in.txt")
                (Path.to_string (Path.of_string "/home/user/in.txt"))
                Ex.directory_target)).
Proof.
  apply (packed_input_is_found (Path.of_string "/t/inputs.tar.gz")
           (Path.of_string "/t/root/home/user/in.txt") "/home/user/in.txt"
           Ex.directory_target _ (Raw "input") (Stat o644 1000 1000)).
  - reflexivity.
  - discriminate.
  - vm_compute; reflexivity.
  - vm_compute; reflexivity.
Defined.


(** The condition of X14 on a second separator cannot be dropped: such a
    name passes the check of the setup, and the member is written at the
    path that follows [DATA/], outside the root. *)
Lemma doubled_separator_leaves_the_root :
  existsb invalid_name [Ex.reg "DATA//work/x" (Raw "gotcha")] = false
  ∧ fs Ex.host !! ["work"; "x"] = None
  ∧ fs (snd (directory_unpack_files [Ex.reg "DATA//work/x" (Raw "gotcha")]
               (RPath true ["t"; "root"]) Ex.host))
    !! ["work"; "x"] = Some (Ex.f (Raw "gotcha")).
Proof. vm_compute. repeat split. Qed.


(** X16, an instance: the chroot setup of the example pack, which holds
    neither a shell nor [env]. *)
Lemma completed_chroot_has_a_shell_witness :
  FS.lexists
    (join_root
       (RPath true
          (FS.locate Ex.host
             (Path.of_string (target (Ex.setup_args "/packs/good.rpz"))
              // "root")))
       (Path.of_string "/bin/sh"))
    (snd (chroot_create id (Ex.setup_args "/packs/good.rpz") Ex.host))
  = (Ok true, snd (chroot_create id (Ex.setup_args "/packs/good.rpz") Ex.host))
  ∧ FS.lexists
      (join_root
         (RPath true
            (FS.locate Ex.host
               (Path.of_string (target (Ex.setup_args "/packs/good.rpz"))
                // "root")))
         (Path.of_string "/usr/bin/env"))
      (snd (chroot_create id (Ex.setup_args "/packs/good.rpz") Ex.host))
    = (Ok true,
       snd (chroot_create id (Ex.setup_args "/packs/good.rpz") Ex.host)).
Proof.
  apply (completed_chroot_has_a_shell id (Ex.setup_args "/packs/good.rpz")
           Ex.host).
  vm_compute; reflexivity.
Defined.
